(** * hgssh4: a forced-command wrapper giving ssh access to Mercurial repositories

    A shallow embedding of [hgssh4.py] and of the pieces of the Python
    standard library its [main] calls ([shlex.split], [configparser]
    look-ups, [os.path.expanduser] / [os.path.abspath]), followed by the
    properties of the decision pipeline: command validation, repository
    and grant look-up, and the construction of the argument vector that
    is handed to [subprocess.run].

    Python [str] values are modelled as [string], sequences of
    characters with codes below 256.  The tokenizer and the path
    functions treat every character above 127 as an ordinary one;
    [str.lower] is modelled on the letters [A-Z]. *)

From Stdlib Require Import String Ascii List ZArith Lia Bool.
From stdpp Require Import base option strings gmap.
Import ListNotations.

Local Open Scope string_scope.
Local Open Scope list_scope.

(** ** Exceptions *)

(** The exception classes that can reach the handler at the bottom of the
    script.  [exn_str] is what [print(e)] writes. *)
Inductive exn_class :=
  | ValueError
  | KeyError
  | InterpolationSyntaxError
  | InterpolationMissingOptionError
  | InterpolationDepthError
  | NoSectionError
  | NoOptionError
  | IndexError
  | ConfigReadError
  | OSError.

Record exn := Raise { exn_cls : exn_class; exn_str : string }.

Global Instance exn_class_eq_dec : EqDecision exn_class.
Proof. solve_decision. Defined.

Global Instance exn_eq_dec : EqDecision exn.
Proof. solve_decision. Defined.

(** ** Python built-ins used by the script *)

Module Py.

(** [s.startswith(p)] *)
Fixpoint startswith (s p : string) {struct p} : bool :=
  match p, s with
  | EmptyString, _ => true
  | String _ _, EmptyString => false
  | String a p', String b s' => Ascii.eqb a b && startswith s' p'
  end.

(** [s[n:]] for [0 <= n] *)
Fixpoint drop (n : nat) (s : string) : string :=
  match n, s with
  | O, _ => s
  | S _, EmptyString => EmptyString
  | S n', String _ s' => drop n' s'
  end.

(** [s.replace(old, new, 1)]: the first (leftmost) occurrence of [old]
    in [s] is replaced by [new]; [s] is returned unchanged when [old]
    does not occur. *)
Fixpoint replace1 (old new s : string) : string :=
  if startswith s old then new +:+ drop (String.length old) s
  else match s with
       | EmptyString => EmptyString
       | String c s' => String c (replace1 old new s')
       end.

(** [c in s] for a one-character string [c] *)
Fixpoint contains (c : ascii) (s : string) : bool :=
  match s with
  | EmptyString => false
  | String d s' => if Ascii.eqb c d then true else contains c s'
  end.

(** [str.lower] on the ASCII letters *)
Definition lower_char (c : ascii) : ascii :=
  let n := nat_of_ascii c in
  if (65 <=? n)%nat && (n <=? 90)%nat then ascii_of_nat (n + 32) else c.

Fixpoint lower (s : string) : string :=
  match s with
  | EmptyString => EmptyString
  | String c s' => String (lower_char c) (lower s')
  end.

(** [s.split(sep)] for a one-character separator: never empty, one more
    field than there are separators. *)
Fixpoint split (sep : ascii) (s : string) : list string :=
  match s with
  | EmptyString => [EmptyString]
  | String c s' =>
      if Ascii.eqb c sep then EmptyString :: split sep s'
      else match split sep s' with
           | [] => [String c EmptyString]
           | f :: fs => String c f :: fs
           end
  end.

(** [sep.join(l)] *)
Fixpoint join (sep : string) (l : list string) : string :=
  match l with
  | [] => EmptyString
  | [x] => x
  | x :: l' => x +:+ sep +:+ join sep l'
  end.

(** [s.rstrip(c)] for a one-character [c] *)
Fixpoint rstrip (c : ascii) (s : string) : string :=
  match s with
  | EmptyString => EmptyString
  | String d s' =>
      match rstrip c s' with
      | EmptyString => if Ascii.eqb d c then EmptyString else String d EmptyString
      | r => String d r
      end
  end.

(** [s.endswith(c)] for a one-character [c] *)
Fixpoint endswith (s : string) (c : ascii) : bool :=
  match s with
  | EmptyString => false
  | String d EmptyString => Ascii.eqb d c
  | String _ s' => endswith s' c
  end.

(** [repr] of a list of [str], given [repr] on [str]. *)
Definition repr_list (repr : string -> string) (l : list string) : string :=
  "[" +:+ join ", " (map repr l) +:+ "]".

End Py.

(** ** shlex.split(s) in POSIX mode

    [shlex.split] builds a lexer with [posix=True], [whitespace_split=True]
    and no comment characters, and lists its tokens.  Under these settings
    the lexer state is one of [' '], ['a'], a quote character or the escape
    character; [self.state] survives from one [read_token] call to the next,
    so the whole scan is one pass over the input. *)

Module Shlex.

Inductive state :=
  | Blank                 (* ' ' : between tokens *)
  | Word                  (* 'a' : inside a token *)
  | Quote (q : ascii)     (* inside '...' or "..." *)
  | Escape.               (* just after a backslash *)

Definition is_whitespace (c : ascii) : bool :=
  Ascii.eqb c " " || Ascii.eqb c "009" || Ascii.eqb c "013" || Ascii.eqb c "010".

(** The double quote, character 34. *)
Definition dquote : ascii := "034".

Definition is_quote (c : ascii) : bool :=
  Ascii.eqb c "'" || Ascii.eqb c dquote.

Definition is_escape (c : ascii) : bool := Ascii.eqb c "\".

(** [escapedstate] is only ever ['a'] or a quote character when it is
    read: [None] stands for ['a'], [Some q] for the quote [q]. *)
Definition snoc (tok : string) (c : ascii) : string := tok +:+ String c EmptyString.

(** [scan st esc quoted tok input]: [st] is [self.state], [esc] is
    [escapedstate], [quoted] and [tok] are the local flag and
    [self.token] of the running [read_token] call. *)
Fixpoint scan (st : state) (esc : option ascii) (quoted : bool) (tok : string)
         (input : string) : exn + list string :=
  match input with
  | EmptyString =>
      match st with
      | Blank => inr []
      | Word => if negb quoted && String.eqb tok "" then inr [] else inr [tok]
      | Quote _ => inl (Raise ValueError "No closing quotation")
      | Escape => inl (Raise ValueError "No escaped character")
      end
  | String c rest =>
      match st with
      | Blank =>
          if is_whitespace c then scan Blank esc quoted tok rest
          else if is_escape c then scan Escape None quoted tok rest
          else if is_quote c then scan (Quote c) esc quoted tok rest
          else scan Word esc quoted (String c EmptyString) rest
      | Quote q =>
          if Ascii.eqb c q then scan Word esc true tok rest
          else if is_escape c && Ascii.eqb q dquote then scan Escape (Some q) true tok rest
          else scan (Quote q) esc true (snoc tok c) rest
      | Escape =>
          let tok' :=
            match esc with
            | Some q =>
                if negb (is_escape c) && negb (Ascii.eqb c q)
                then snoc (snoc tok "\") c else snoc tok c
            | None => snoc tok c
            end in
          scan (match esc with Some q => Quote q | None => Word end) esc quoted tok' rest
      | Word =>
          if is_whitespace c then
            if negb (String.eqb tok "") || quoted
            then match scan Blank None false "" rest with
                 | inr toks => inr (tok :: toks)
                 | inl e => inl e
                 end
            else scan Blank esc quoted tok rest
          else if is_quote c then scan (Quote c) esc quoted tok rest
          else if is_escape c then scan Escape None quoted tok rest
          else scan Word esc quoted (snoc tok c) rest
      end
  end.

Definition split (s : string) : exn + list string := scan Blank None false "" s.

End Shlex.

(** ** posixpath: expanduser, join, normpath, abspath *)

Module Posixpath.

Definition sep : string := "/".

(** [os.path.isabs] *)
Definition isabs (s : string) : bool := Py.startswith s sep.

(** [os.path.join(a, b)] *)
Definition join (a b : string) : string :=
  if Py.startswith b sep then b
  else if String.eqb a "" || Py.endswith a "/" then a +:+ b
  else a +:+ sep +:+ b.

(** The loop of [normpath] over the components; [new_comps] is kept in
    reverse, so its head is [new_comps[-1]]. *)
Fixpoint norm_comps (initial_slashes : nat) (new_comps : list string)
         (comps : list string) : list string :=
  match comps with
  | [] => rev new_comps
  | comp :: comps' =>
      if String.eqb comp "" || String.eqb comp "." then
        norm_comps initial_slashes new_comps comps'
      else if negb (String.eqb comp "..")
              || (Nat.eqb initial_slashes 0 && match new_comps with [] => true | _ => false end)
              || match new_comps with last :: _ => String.eqb last ".." | [] => false end
      then norm_comps initial_slashes (comp :: new_comps) comps'
      else match new_comps with
           | _ :: popped => norm_comps initial_slashes popped comps'
           | [] => norm_comps initial_slashes new_comps comps'
           end
  end.

Fixpoint repeat_sep (n : nat) : string :=
  match n with O => "" | S n' => sep +:+ repeat_sep n' end.

(** [os.path.normpath] *)
Definition normpath (path : string) : string :=
  if String.eqb path "" then "."
  else
    let initial_slashes :=
      if Py.startswith path sep then
        if Py.startswith path "//" && negb (Py.startswith path "///") then 2%nat else 1%nat
      else 0%nat in
    let comps := norm_comps initial_slashes [] (Py.split "/" path) in
    let path' := repeat_sep initial_slashes +:+ Py.join sep comps in
    if String.eqb path' "" then "." else path'.

(** What [expanduser] and [abspath] read from the host. *)
Record host := {
  environ_HOME : option string;          (* os.environ.get('HOME') *)
  getpwuid_dir : option string;          (* pwd.getpwuid(os.getuid()).pw_dir, None on KeyError *)
  getpwnam_dir : string -> option string; (* pwd.getpwnam(name).pw_dir, None on KeyError *)
  getcwd : string                        (* os.getcwd() *)
}.

(** [path.find('/', 1)], with [len(path)] when there is none; [path]
    starts with ['~'] here, so the result is at least 1. *)
Fixpoint find_sep_from (i : nat) (s : string) : nat :=
  match s with
  | EmptyString => i
  | String c s' => if Ascii.eqb c "/" then i else find_sep_from (S i) s'
  end.

(** [os.path.expanduser] *)
Definition expanduser (h : host) (path : string) : string :=
  if negb (Py.startswith path "~") then path
  else
    let i := find_sep_from 1 (Py.drop 1 path) in
    let userhome :=
      if Nat.eqb i 1 then
        match environ_HOME h with
        | Some home => Some home
        | None => getpwuid_dir h
        end
      else getpwnam_dir h (String.substring 1 (i - 1) path) in
    match userhome with
    | None => path
    | Some userhome =>
        let r := Py.rstrip "/" userhome +:+ Py.drop i path in
        if String.eqb r "" then "/" else r
    end.

(** [os.path.abspath] *)
Definition abspath (h : host) (path : string) : string :=
  if negb (isabs path) then normpath (join (getcwd h) path)
  else normpath path.

End Posixpath.

(** ** configparser.ConfigParser: the look-ups the script performs

    A parser that has read its files holds the options of the [DEFAULT]
    section and, per named section, the options of that section.  Values
    are strings ([allow_no_value] is off); look-ups go through
    [optionxform] (lower-casing) and [BasicInterpolation]. *)

Module Configparser.

Record ConfigParser := {
  _defaults : gmap string string;
  _sections : gmap string (gmap string string)
}.

Definition default_section : string := "DEFAULT".
Definition MAX_INTERPOLATION_DEPTH : nat := 10.

Definition optionxform (optionstr : string) : string := Py.lower optionstr.

Definition has_section (p : ConfigParser) (section : string) : bool :=
  bool_decide (is_Some (_sections p !! section)).

Definition has_option (p : ConfigParser) (section option : string) : bool :=
  if String.eqb section "" || String.eqb section default_section then
    bool_decide (is_Some (_defaults p !! optionxform option))
  else
    match _sections p !! section with
    | None => false
    | Some sectiondict =>
        bool_decide (is_Some (sectiondict !! optionxform option))
        || bool_decide (is_Some (_defaults p !! optionxform option))
    end.

(** [_unify_values(section, None)]: the section's options shadow the
    defaults. *)
Definition unify_values (p : ConfigParser) (section : string)
  : option (gmap string string) :=
  match _sections p !! section with
  | Some sectiondict => Some (sectiondict ∪ _defaults p)
  | None => if String.eqb section default_section then Some (_defaults p) else None
  end.

Section Interpolation.
(** [repr] on [str], used by the messages of the interpolation errors. *)
Variable repr : string -> string.
Variables (option section rawval : string) (map : gmap string string).

Definition syntax_error (msg : string) : exn := Raise InterpolationSyntaxError msg.

Definition missing_option_error (reference : string) : exn :=
  Raise InterpolationMissingOptionError
    ("Bad value substitution: option " +:+ repr option +:+ " in section "
       +:+ repr section +:+ " contains an interpolation key " +:+ repr reference
       +:+ " which is not a valid option name. Raw value: " +:+ repr rawval).

Definition depth_error : exn :=
  Raise InterpolationDepthError
    ("Recursion limit exceeded in value substitution: option " +:+ repr option
       +:+ " in section " +:+ repr section
       +:+ " contains an interpolation key which cannot be substituted in 10 steps."
       +:+ " Raw value: " +:+ repr rawval).

(** Where the scan of [rest] stands: in plain text, just after a ['%'],
    or inside the name of a [%(name)s] reference.  [from] is [rest] as
    it was at the ['%'], which the error messages quote. *)
Inductive istate :=
  | Plain
  | Percent (from : string)
  | Key (from : string) (name : string)
  | Close (from : string) (name : string).

(** [_interpolate_some]; [levels] is how many nested calls are still
    allowed ([depth > MAX_INTERPOLATION_DEPTH] when it is 0); the
    result is what the call appends to [accum]. *)
Fixpoint interpolate_some (levels : nat) (rest : string) : exn + string :=
  match levels with
  | O => inl depth_error
  | S levels' =>
      (fix loop (st : istate) (rest : string) : exn + string :=
         match st, rest with
         | Plain, EmptyString => inr ""
         | Plain, String c rest' =>
             if Ascii.eqb c "%" then loop (Percent rest) rest'
             else match loop Plain rest' with
                  | inr out => inr (String c out)
                  | inl e => inl e
                  end
         | Percent from, String c rest' =>
             if Ascii.eqb c "%" then
               match loop Plain rest' with
               | inr out => inr (String "%" out)
               | inl e => inl e
               end
             else if Ascii.eqb c "(" then loop (Key from "") rest'
             else inl (syntax_error
                         ("'%' must be followed by '%' or '(', found: " +:+ repr from))
         | Percent from, EmptyString =>
             inl (syntax_error
                    ("'%' must be followed by '%' or '(', found: " +:+ repr from))
         | Key from name, String c rest' =>
             if Ascii.eqb c ")" then
               if String.eqb name "" then
                 inl (syntax_error ("bad interpolation variable reference " +:+ repr from))
               else loop (Close from name) rest'
             else loop (Key from (name +:+ String c "")) rest'
         | Key from _, EmptyString =>
             inl (syntax_error ("bad interpolation variable reference " +:+ repr from))
         | Close from name, String c rest' =>
             if Ascii.eqb c "s" then
               let var := optionxform name in
               match map !! var with
               | None => inl (missing_option_error var)
               | Some v =>
                   match (if Py.contains "%" v then interpolate_some levels' v else inr v) with
                   | inl e => inl e
                   | inr out1 =>
                       match loop Plain rest' with
                       | inr out2 => inr (out1 +:+ out2)
                       | inl e => inl e
                       end
                   end
               end
             else inl (syntax_error ("bad interpolation variable reference " +:+ repr from))
         | Close from _, EmptyString =>
             inl (syntax_error ("bad interpolation variable reference " +:+ repr from))
         end) Plain rest
  end.

End Interpolation.

(** [parser.get(section, option)] *)
Definition get (repr : string -> string) (p : ConfigParser) (section option : string)
  : exn + string :=
  match unify_values p section with
  | None => inl (Raise NoSectionError ("No section: " +:+ repr section))
  | Some d =>
      let option := optionxform option in
      match d !! option with
      | None => inl (Raise NoOptionError
                       ("No option " +:+ repr option +:+ " in section: " +:+ repr section))
      | Some value =>
          interpolate_some repr option section value d MAX_INTERPOLATION_DEPTH value
      end
  end.

(** [parser[key]]: the proxy of a section is identified by its name. *)
Definition parser_getitem (repr : string -> string) (p : ConfigParser) (key : string)
  : exn + string :=
  if negb (String.eqb key default_section) && negb (has_section p key)
  then inl (Raise KeyError (repr key))
  else inr key.

(** [proxy[key]] for the proxy of section [name] *)
Definition proxy_getitem (repr : string -> string) (p : ConfigParser) (name key : string)
  : exn + string :=
  if negb (has_option p name key) then inl (Raise KeyError (repr key))
  else get repr p name key.

End Configparser.

(** ** hgssh4.py *)

Module Hgssh4.
Import Configparser.

(** What the script reads from, and does to, the world around it. *)
Record runtime := {
  repr : string -> string;
    (* repr() on str *)
  read_config : string -> exn + ConfigParser;
    (* configparser.ConfigParser() followed by config.read(path) *)
  getenv_SSH_ORIGINAL_COMMAND : option string;
    (* os.environ.get('SSH_ORIGINAL_COMMAND') *)
  host : Posixpath.host;
  subprocess_run : list string -> exn + Z
    (* subprocess.run(cmd, stdin=..., stdout=..., stderr=...): the return
       code of the completed child (negative when a signal killed it), or
       the exception raised when the child could not be started *)
}.

(** *** Effects: a trace of what the process did, and exceptions *)

Inductive event :=
  | Spawn (argv : list string) (returncode : Z)   (* a child process was run *)
  | Stderr (line : string).                       (* a line printed to sys.stderr *)

Definition M (A : Type) : Type := list event * (exn + A).

Definition ret {A} (a : A) : M A := ([], inr a).
Definition raise {A} (e : exn) : M A := ([], inl e).
Definition lift {A} (r : exn + A) : M A := ([], r).
Definition bind {A B} (m : M A) (k : A -> M B) : M B :=
  match m with
  | (t, inl e) => (t, inl e)
  | (t, inr a) => let '(t', r) := k a in (t ++ t', r)
  end.

(** The same sequencing for the steps that have no effect but raising. *)
Definition ebind {A B} (r : exn + A) (k : A -> exn + B) : exn + B :=
  match r with
  | inl e => inl e
  | inr a => k a
  end.

Global Instance exn_mbind : MBind (sum exn) := fun A B k r => ebind r k.

(** [try: r  except KeyError as e: raise ValueError(msg) from e] *)
Definition except_KeyError {A} (r : exn + A) (msg : string) : exn + A :=
  match r with
  | inl e => if decide (exn_cls e = KeyError) then inl (Raise ValueError msg) else inl e
  | inr a => inr a
  end.

(** [l[i]] *)
Definition getitem (l : list string) (i : nat) : exn + string :=
  match l !! i with
  | Some x => inr x
  | None => inl (Raise IndexError "list index out of range")
  end.

(** *** main, lines 79-87: the original command and its shape *)
Definition validate (repr : string -> string) (orig_cmd : string) : exn + string :=
  cmdargv ← Shlex.split orig_cmd;
  if negb (bool_decide (take 2 cmdargv = ["hg"; "-R"])
           && bool_decide (drop 3 cmdargv = ["serve"; "--stdio"]))
  then inl (Raise ValueError ("Illegal command " +:+ Py.repr_list repr cmdargv))
  else getitem cmdargv 2.

(** [cmdargv[2].replace(os.sep, '', 1)] *)
Definition repo_name_of (token : string) : string :=
  Py.replace1 Posixpath.sep "" token.

(** *** main, lines 88-104: the repository section, its location, the grant *)
Definition resolve (rt : runtime) (config : ConfigParser) (user repo_name : string)
  : exn + (string * string) :=
  repo_conf ← except_KeyError (parser_getitem (repr rt) config ("repos." +:+ repo_name))
                 "No such repository";
  repo_path ← except_KeyError (proxy_getitem (repr rt) config repo_conf "location")
                 "Bad config: no location for repository";
  let repo_path := Posixpath.abspath (host rt) (Posixpath.expanduser (host rt) repo_path) in
  access ← except_KeyError (proxy_getitem (repr rt) config repo_conf user)
              "Access denied";
  if negb (bool_decide (access ∈ ["read"; "write"]))
  then inl (Raise ValueError "Access denied")
  else inr (repo_path, access).

(** *** main, lines 106-112: the argument vector *)
Definition build_cmd (rt : runtime) (config : ConfigParser) (repo_path access : string)
  : exn + list string :=
  let cmd := ["hg"; "-R"; repo_path; "serve"; "--stdio"] in
  if String.eqb access "read" then
    sudo_user ← except_KeyError
                   (readonly ← parser_getitem (repr rt) config "readonly";
                    proxy_getitem (repr rt) config readonly "sudo")
                   "Bad config: no readonly sudo user";
    inr (["sudo"; "--user=" +:+ sudo_user; "--"] ++ cmd)
  else inr cmd.

(** *** main up to the call of subprocess.run

    [user] and [conf] are [args.user] and [args.conf] as [argparse]
    returned them. *)
Definition command (rt : runtime) (user conf : string) : exn + list string :=
  config ← read_config rt conf;
  let orig_cmd := default "?" (getenv_SSH_ORIGINAL_COMMAND rt) in
  token ← validate (repr rt) orig_cmd;
  let repo_name := repo_name_of token in
  '(repo_path, access) ← resolve rt config user repo_name;
  build_cmd rt config repo_path access.

(** [subprocess.run(cmd, ...)]; the result is discarded by [main]. *)
Definition run (rt : runtime) (cmd : list string) : M unit :=
  match subprocess_run rt cmd with
  | inr returncode => ([Spawn cmd returncode], inr tt)
  | inl e => ([], inl e)
  end.

Definition main (rt : runtime) (user conf : string) : M unit :=
  bind (lift (command rt user conf)) (run rt).

(** *** The script: [main()] under [except BaseException], lines 119-124 *)
Record outcome := { trace : list event; exit_status : Z }.

Definition script (rt : runtime) (user conf : string) : outcome :=
  match main rt user conf with
  | (t, inr _) => {| trace := t; exit_status := 0 |}
  | (t, inl e) => {| trace := t ++ [Stderr (exn_str e)]; exit_status := 1 |}
  end.

(** The argument vectors of the child processes run, and the lines the
    script itself wrote to its error stream. *)
Definition spawned (o : outcome) : list (list string) :=
  omap (fun ev => match ev with Spawn argv _ => Some argv | _ => None end) (trace o).

Definition stderr (o : outcome) : list string :=
  omap (fun ev => match ev with Stderr line => Some line | _ => None end) (trace o).

End Hgssh4.

(** ** Sample data

    The access-control file of the script's documentation, without the
    trailing remarks, and a host to run on. *)

Module Sample.
Import Configparser Hgssh4.

Definition acl : ConfigParser := {|
  _defaults := ∅;
  _sections :=
    <["readonly" := {["sudo" := "hgread"]}]>
    (<["repos.myrepo1" := <["location" := "relative/path/to/repo"]>
                           (<["user1" := "write"]> {["user2" := "read"]})]>
    {["repos.myrepo2" := <["location" := "/absolute/path/to/repo"]>
                           (<["user1" := "read"]>
                           (<["user4" := "read"]> {["user3" := "write"]}))]})
|}.

(** The same file without its [readonly] section. *)
Definition acl_no_sudo : ConfigParser := {|
  _defaults := _defaults acl;
  _sections := delete "readonly" (_sections acl)
|}.

(** The same file with one more line, [user = value], in the section of
    [myrepo1]. *)
Definition acl_with (user value : string) : ConfigParser := {|
  _defaults := _defaults acl;
  _sections := alter (insert user value) "repos.myrepo1" (_sections acl)
|}.

(** [repr] on strings of letters, digits and punctuation other than
    quotes and backslashes. *)
Definition quote (s : string) : string := "'" +:+ s +:+ "'".

Definition hg_host : Posixpath.host := {|
  Posixpath.environ_HOME := Some "/home/hg";
  Posixpath.getpwuid_dir := Some "/home/hg";
  Posixpath.getpwnam_dir := fun name => if String.eqb name "hg" then Some "/home/hg" else None;
  Posixpath.getcwd := "/home/hg"
|}.

(** A run with configuration [config], original command [orig_cmd] and a
    child that ends with return code [returncode]. *)
Definition rt (config : ConfigParser) (orig_cmd : option string) (returncode : Z) : runtime := {|
  repr := quote;
  read_config := fun _ => inr config;
  getenv_SSH_ORIGINAL_COMMAND := orig_cmd;
  host := hg_host;
  subprocess_run := fun _ => inr returncode
|}.

(** A file that uses the default section and value interpolation. *)
Definition acl_interpolated : ConfigParser := {|
  _defaults := {["base" := "/srv/hg"]};
  _sections :=
    {["repos.a" := <["location" := "%(BASE)s/a"]>
                   (<["x" := "100%%"]> (<["y" := "%(nope)s"]> {["z" := "50%"]}))]}
|}.

(** The documentation's file with the [location] line of [myrepo1]
    removed. *)
Definition acl_no_location : ConfigParser := {|
  _defaults := _defaults acl;
  _sections := alter (delete "location") "repos.myrepo1" (_sections acl)
|}.

(** A file whose [DEFAULT] section holds the location and grants every
    repository to [admin]. *)
Definition acl_defaults : ConfigParser := {|
  _defaults := <["location" := "/srv/hg"]> {["admin" := "write"]};
  _sections := <["readonly" := {["sudo" := "hgread"]}]>
               {["repos.scratch" := {["user2" := "read"]}]}
|}.

(** The documentation's file with a location that is not valid
    interpolation syntax. *)
Definition acl_bad_location : ConfigParser := {|
  _defaults := _defaults acl;
  _sections := alter (insert "location" "50%") "repos.myrepo1" (_sections acl)
|}.

(** The runs used below. *)
Definition cmd_myrepo1 : string := "hg -R myrepo1 serve --stdio".
Definition cmd_injected : string := "hg -R myrepo1 serve --stdio; rm -rf /".
Definition cmd_unbalanced : string := "hg -R 'myrepo1 serve --stdio".

Definition rt_myrepo1 : runtime := rt acl (Some cmd_myrepo1) 0.
Definition rt_myrepo1_failing : runtime := rt acl (Some cmd_myrepo1) 1.
Definition rt_myrepo1_killed : runtime := rt acl (Some cmd_myrepo1) (-9).
Definition rt_myrepo3 : runtime := rt acl (Some "hg -R myrepo3 serve --stdio") 0.
Definition rt_leading_sep : runtime := rt acl (Some "hg -R /myrepo1 serve --stdio") 0.
Definition rt_inner_sep : runtime := rt acl (Some "hg -R my/repo1 serve --stdio") 0.
Definition rt_injected : runtime := rt acl (Some cmd_injected) 0.
Definition rt_unbalanced : runtime := rt acl (Some cmd_unbalanced) 0.
Definition rt_no_command : runtime := rt acl None 0.
Definition rt_no_sudo : runtime := rt acl_no_sudo (Some cmd_myrepo1) 0.
Definition rt_bad_grant : runtime := rt (acl_with "user5" "Write") (Some cmd_myrepo1) 0.

Definition rt_no_location : runtime := rt acl_no_location (Some cmd_myrepo1) 0.

Definition rt_scratch : runtime := rt acl_defaults (Some "hg -R scratch serve --stdio") 0.

Definition rt_bad_location : runtime := rt acl_bad_location (Some cmd_myrepo1) 0.

Definition cmdargv_injected : list string :=
  ["hg"; "-R"; "myrepo1"; "serve"; "--stdio;"; "rm"; "-rf"; "/"].
Definition cmd_write : list string :=
  ["hg"; "-R"; "/home/hg/relative/path/to/repo"; "serve"; "--stdio"].
Definition cmd_read : list string :=
  ["sudo"; "--user=hgread"; "--";
   "hg"; "-R"; "/home/hg/relative/path/to/repo"; "serve"; "--stdio"].

End Sample.

(** ** Vocabulary for the statements below *)

Module Words.
Import Hgssh4.

(** A character that [shlex] takes literally: no whitespace, no quote, no
    backslash. *)
Definition is_plain (c : ascii) : bool :=
  negb (Shlex.is_whitespace c) && negb (Shlex.is_quote c) && negb (Shlex.is_escape c).

Fixpoint all_plain (s : string) : bool :=
  match s with
  | EmptyString => true
  | String c s' => is_plain c && all_plain s'
  end.

(** A word: one or more plain characters. *)
Definition is_word (w : string) : bool := negb (String.eqb w "") && all_plain w.

(** The same run with another value of [SSH_ORIGINAL_COMMAND]. *)
Definition with_command (rt : runtime) (orig_cmd : option string) : runtime := {|
  repr := repr rt;
  read_config := read_config rt;
  getenv_SSH_ORIGINAL_COMMAND := orig_cmd;
  host := host rt;
  subprocess_run := subprocess_run rt
|}.

End Words.

(** * Properties *)

Section Pipeline.
Import Configparser Hgssh4.

(** ** The library models on concrete inputs *)

Example shlex_split_quoted :
  Shlex.split "hg -R 'my repo' serve --stdio"
  = inr ["hg"; "-R"; "my repo"; "serve"; "--stdio"].
Proof. reflexivity. Qed.

Example shlex_split_escaped :
  Shlex.split "hg -R my\ repo serve --stdio"
  = inr ["hg"; "-R"; "my repo"; "serve"; "--stdio"].
Proof. reflexivity. Qed.

Example shlex_split_empty_token :
  Shlex.split "hg -R '' serve --stdio" = inr ["hg"; "-R"; ""; "serve"; "--stdio"].
Proof. reflexivity. Qed.

Example shlex_split_trailing_backslash :
  Shlex.split "hg -R repo serve --stdio\" = inl (Raise ValueError "No escaped character").
Proof. reflexivity. Qed.

Example normpath_collapses :
  Posixpath.normpath "/srv//hg/./a/../b/" = "/srv/hg/b"
  ∧ Posixpath.normpath "//srv" = "//srv"
  ∧ Posixpath.normpath "///srv" = "/srv"
  ∧ Posixpath.normpath "" = "."
  ∧ Posixpath.normpath "../a" = "../a"
  ∧ Posixpath.normpath "/.." = "/"
  ∧ Posixpath.normpath "a/../.." = "..".
Proof. repeat split. Qed.

Example expanduser_cases :
  Posixpath.expanduser Sample.hg_host "~/repos/x" = "/home/hg/repos/x"
  ∧ Posixpath.expanduser Sample.hg_host "~" = "/home/hg"
  ∧ Posixpath.expanduser Sample.hg_host "~hg/x" = "/home/hg/x"
  ∧ Posixpath.expanduser Sample.hg_host "~nobody/x" = "~nobody/x"
  ∧ Posixpath.abspath Sample.hg_host "relative/path/to/repo"
    = "/home/hg/relative/path/to/repo".
Proof. repeat split. Qed.

Example proxy_getitem_cases :
  proxy_getitem Sample.quote Sample.acl_interpolated "repos.a" "location" = inr "/srv/hg/a"
  ∧ proxy_getitem Sample.quote Sample.acl_interpolated "repos.a" "x" = inr "100%"
  ∧ proxy_getitem Sample.quote Sample.acl_interpolated "repos.a" "Base" = inr "/srv/hg"
  ∧ proxy_getitem Sample.quote Sample.acl_interpolated "repos.a" "w"
    = inl (Raise KeyError "'w'")
  ∧ proxy_getitem Sample.quote Sample.acl_interpolated "repos.a" "z"
    = inl (Raise InterpolationSyntaxError "'%' must be followed by '%' or '(', found: '%'")
  ∧ proxy_getitem Sample.quote Sample.acl_interpolated "repos.a" "y"
    = inl (Raise InterpolationMissingOptionError
             ("Bad value substitution: option 'y' in section 'repos.a' contains "
              +:+ "an interpolation key 'nope' which is not a valid option name. "
              +:+ "Raw value: '%(nope)s'")).
Proof. vm_compute. repeat split. Qed.

(** ** The slice comparison of the shape check *)

Lemma shape_check_iff (cmdargv : list string) :
  take 2 cmdargv = ["hg"; "-R"] ∧ drop 3 cmdargv = ["serve"; "--stdio"]
  ↔ ∃ token, cmdargv = ["hg"; "-R"; token; "serve"; "--stdio"].
Proof.
  split.
  - intros [Htake Hdrop].
    destruct cmdargv as [|a [|b [|t [|c [|d [|x l]]]]]]; simpl in *; try discriminate.
    exists t. by simplify_eq.
  - intros [t ->]. by split.
Qed.

Lemma validate_split_error (repr : string -> string) (raw : string) (e : exn) :
  Shlex.split raw = inl e → validate repr raw = inl e.
Proof. intros H. unfold validate, mbind, exn_mbind, ebind. by rewrite H. Qed.

Lemma validate_accept (repr : string -> string) (raw token : string) :
  Shlex.split raw = inr ["hg"; "-R"; token; "serve"; "--stdio"] →
  validate repr raw = inr token.
Proof. intros H. unfold validate, mbind, exn_mbind, ebind. by rewrite H. Qed.

Lemma validate_reject (repr : string -> string) (raw : string) (cmdargv : list string) :
  Shlex.split raw = inr cmdargv →
  (∀ token, cmdargv ≠ ["hg"; "-R"; token; "serve"; "--stdio"]) →
  validate repr raw
  = inl (Raise ValueError ("Illegal command " +:+ Py.repr_list repr cmdargv)).
Proof.
  intros H Hshape. unfold validate, mbind, exn_mbind, ebind. rewrite H.
  destruct (bool_decide (take 2 cmdargv = ["hg"; "-R"])
            && bool_decide (drop 3 cmdargv = ["serve"; "--stdio"])) eqn:Hc; [|done].
  apply andb_true_iff in Hc as [H1%bool_decide_eq_true H2%bool_decide_eq_true].
  destruct (proj1 (shape_check_iff cmdargv) (conj H1 H2)) as [t Ht].
  by destruct (Hshape t).
Qed.

Lemma validate_inr_inv (repr : string -> string) (raw token : string) :
  validate repr raw = inr token →
  Shlex.split raw = inr ["hg"; "-R"; token; "serve"; "--stdio"].
Proof.
  unfold validate, mbind, exn_mbind, ebind.
  destruct (Shlex.split raw) as [e|cmdargv]; [done|].
  destruct (bool_decide (take 2 cmdargv = ["hg"; "-R"])
            && bool_decide (drop 3 cmdargv = ["serve"; "--stdio"])) eqn:Hc; [|done].
  apply andb_true_iff in Hc as [H1%bool_decide_eq_true H2%bool_decide_eq_true].
  destruct (proj1 (shape_check_iff cmdargv) (conj H1 H2)) as [t ->].
  simpl. intros [= ->]. done.
Qed.

(** ** The handler around main *)

Lemma script_of_command_error (rt : runtime) (user conf : string) (e : exn) :
  command rt user conf = inl e →
  script rt user conf = {| trace := [Stderr (exn_str e)]; exit_status := 1 |}.
Proof. intros H. unfold script, main, bind, lift. by rewrite H. Qed.

Lemma script_of_command (rt : runtime) (user conf : string) (cmd : list string) :
  command rt user conf = inr cmd →
  script rt user conf
  = match subprocess_run rt cmd with
    | inr returncode => {| trace := [Spawn cmd returncode]; exit_status := 0 |}
    | inl e => {| trace := [Stderr (exn_str e)]; exit_status := 1 |}
    end.
Proof.
  intros H. unfold script, main, bind, lift, run. rewrite H.
  by destruct (subprocess_run rt cmd).
Qed.

(** Nothing is run, and the exit status is 1, whenever [main] raises
    before it reaches [subprocess.run]. *)
Lemma no_spawn_of_command_error (rt : runtime) (user conf : string) (e : exn) :
  command rt user conf = inl e →
  spawned (script rt user conf) = []
  ∧ exit_status (script rt user conf) = 1%Z
  ∧ stderr (script rt user conf) = [exn_str e].
Proof. intros H. by rewrite (script_of_command_error _ _ _ _ H). Qed.

Lemma command_read_error (rt : runtime) (user conf : string) (e : exn) :
  read_config rt conf = inl e → command rt user conf = inl e.
Proof. intros H. unfold command, mbind, exn_mbind, ebind. by rewrite H. Qed.

Lemma command_validate_error (rt : runtime) (user conf : string)
      (config : ConfigParser) (e : exn) :
  read_config rt conf = inr config →
  validate (repr rt) (default "?" (getenv_SSH_ORIGINAL_COMMAND rt)) = inl e →
  command rt user conf = inl e.
Proof. intros H1 H2. unfold command, mbind, exn_mbind, ebind. by rewrite H1, H2. Qed.

Lemma command_validated (rt : runtime) (user conf token : string) (config : ConfigParser) :
  read_config rt conf = inr config →
  validate (repr rt) (default "?" (getenv_SSH_ORIGINAL_COMMAND rt)) = inr token →
  command rt user conf
  = '(repo_path, access) ← resolve rt config user (repo_name_of token);
    build_cmd rt config repo_path access.
Proof. intros H1 H2. unfold command, mbind, exn_mbind, ebind. by rewrite H1, H2. Qed.

(** A command that fails validation fails the script before anything is
    run, whether or not the configuration could be read. *)
Lemma invalid_command_fails (rt : runtime) (user conf : string) (e : exn) :
  validate (repr rt) (default "?" (getenv_SSH_ORIGINAL_COMMAND rt)) = inl e →
  spawned (script rt user conf) = []
  ∧ exit_status (script rt user conf) = 1%Z
  ∧ ∀ config, read_config rt conf = inr config →
              stderr (script rt user conf) = [exn_str e].
Proof.
  intros Hv. destruct (read_config rt conf) as [e'|config] eqn:Hread.
  - destruct (no_spawn_of_command_error _ user _ _ (command_read_error _ user _ _ Hread))
      as (? & ? & ?).
    by repeat split.
  - destruct (no_spawn_of_command_error _ user _ _
                (command_validate_error _ user _ _ _ Hread Hv)) as (? & ? & ?).
    by repeat split.
Qed.

(** ** The tokenizer fails in two ways only *)

Lemma scan_error (input : string) :
  ∀ st esc quoted tok e,
    Shlex.scan st esc quoted tok input = inl e →
    e = Raise ValueError "No closing quotation"
    ∨ e = Raise ValueError "No escaped character".
Proof.
  induction input as [|c rest IH]; intros st esc quoted tok e; simpl.
  - destruct st; repeat case_match; intros [= <-]; auto.
  - destruct st; repeat case_match; intros Hscan; try discriminate;
      try (injection Hscan as <-); eauto.
Qed.

Lemma split_error_not_shape (raw : string) (e : exn) (l : list string) (repr : string -> string) :
  Shlex.split raw = inl e →
  e ≠ Raise ValueError ("Illegal command " +:+ Py.repr_list repr l).
Proof.
  intros H. destruct (scan_error _ _ _ _ _ _ H) as [-> | ->]; discriminate.
Qed.

(** ** Command validation *)

(** C1.  The original command is accepted exactly when [shlex.split]
    yields the five tokens [hg -R <token> serve --stdio]; any other token
    list is refused with [ValueError('Illegal command ...')], the script
    prints that message, runs nothing and exits with status 1. *)
Theorem validate_exact_shape (rt : runtime) (user conf raw : string) :
  getenv_SSH_ORIGINAL_COMMAND rt = Some raw →
  (∀ token, validate (repr rt) raw = inr token
            ↔ Shlex.split raw = inr ["hg"; "-R"; token; "serve"; "--stdio"])
  ∧ (∀ cmdargv,
       Shlex.split raw = inr cmdargv →
       (∀ token, cmdargv ≠ ["hg"; "-R"; token; "serve"; "--stdio"]) →
       validate (repr rt) raw
       = inl (Raise ValueError ("Illegal command " +:+ Py.repr_list (repr rt) cmdargv))
       ∧ spawned (script rt user conf) = []
       ∧ exit_status (script rt user conf) = 1%Z
       ∧ ∀ config, read_config rt conf = inr config →
                   stderr (script rt user conf)
                   = ["Illegal command " +:+ Py.repr_list (repr rt) cmdargv]).
Proof.
  intros Henv. split.
  - intros token. split; [apply validate_inr_inv | apply validate_accept].
  - intros cmdargv Hsplit Hshape.
    pose proof (validate_reject (repr rt) _ _ Hsplit Hshape) as Hv.
    split; [exact Hv|].
    apply (invalid_command_fails rt user conf (Raise ValueError _)).
    by rewrite Henv.
Qed.

Lemma validate_exact_shape_witness :
  getenv_SSH_ORIGINAL_COMMAND Sample.rt_injected = Some Sample.cmd_injected
  ∧ Shlex.split Sample.cmd_injected = inr Sample.cmdargv_injected
  ∧ (∀ token, Sample.cmdargv_injected ≠ ["hg"; "-R"; token; "serve"; "--stdio"])
  ∧ spawned (script Sample.rt_injected "user1" "acl") = []
  ∧ exit_status (script Sample.rt_injected "user1" "acl") = 1%Z
  ∧ stderr (script Sample.rt_injected "user1" "acl")
    = ["Illegal command ['hg', '-R', 'myrepo1', 'serve', '--stdio;', 'rm', '-rf', '/']"].
Proof.
  assert (Henv : getenv_SSH_ORIGINAL_COMMAND Sample.rt_injected = Some Sample.cmd_injected)
    by reflexivity.
  assert (Hsplit : Shlex.split Sample.cmd_injected = inr Sample.cmdargv_injected)
    by reflexivity.
  assert (Hshape : ∀ token,
             Sample.cmdargv_injected ≠ ["hg"; "-R"; token; "serve"; "--stdio"])
    by (intros token; discriminate).
  destruct (validate_exact_shape Sample.rt_injected "user1" "acl" _ Henv) as [_ Hrej].
  destruct (Hrej Sample.cmdargv_injected Hsplit Hshape) as (_ & Hsp & Hex & Herr).
  exact (conj Henv (conj Hsplit (conj Hshape
           (conj Hsp (conj Hex (Herr Sample.acl eq_refl)))))).
Defined.

(** C9.  Without [SSH_ORIGINAL_COMMAND] the command is taken to be ["?"],
    whose only token is ["?"]: validation refuses it, nothing is run and
    the exit status is 1. *)
Theorem missing_original_command_rejected (rt : runtime) (user conf : string) :
  getenv_SSH_ORIGINAL_COMMAND rt = None →
  validate (repr rt) (default "?" (getenv_SSH_ORIGINAL_COMMAND rt))
  = inl (Raise ValueError ("Illegal command " +:+ Py.repr_list (repr rt) ["?"]))
  ∧ spawned (script rt user conf) = []
  ∧ exit_status (script rt user conf) = 1%Z
  ∧ ∀ config, read_config rt conf = inr config →
              stderr (script rt user conf)
              = ["Illegal command " +:+ Py.repr_list (repr rt) ["?"]].
Proof.
  intros Henv.
  assert (Hv : validate (repr rt) (default "?" (getenv_SSH_ORIGINAL_COMMAND rt))
               = inl (Raise ValueError ("Illegal command " +:+ Py.repr_list (repr rt) ["?"]))).
  { rewrite Henv. simpl. apply validate_reject; [reflexivity | intros token; discriminate]. }
  split; [exact Hv|].
  exact (invalid_command_fails rt user conf (Raise ValueError _) Hv).
Qed.

Lemma missing_original_command_rejected_witness :
  getenv_SSH_ORIGINAL_COMMAND Sample.rt_no_command = None
  ∧ spawned (script Sample.rt_no_command "user1" "acl") = []
  ∧ exit_status (script Sample.rt_no_command "user1" "acl") = 1%Z
  ∧ stderr (script Sample.rt_no_command "user1" "acl") = ["Illegal command ['?']"].
Proof.
  destruct (missing_original_command_rejected Sample.rt_no_command "user1" "acl" eq_refl)
    as (_ & Hsp & Hex & Herr).
  exact (conj eq_refl (conj Hsp (conj Hex (Herr Sample.acl eq_refl)))).
Defined.

(** C10.  When [shlex.split] itself raises (an unbalanced quote, a
    trailing backslash), the exception is the tokenizer's own
    [ValueError], not the shape check's; nothing is run and the exit
    status is 1. *)
Theorem untokenizable_command_fails (rt : runtime) (user conf raw : string) (e : exn) :
  getenv_SSH_ORIGINAL_COMMAND rt = Some raw →
  Shlex.split raw = inl e →
  (e = Raise ValueError "No closing quotation" ∨ e = Raise ValueError "No escaped character")
  ∧ (∀ cmdargv, e ≠ Raise ValueError ("Illegal command " +:+ Py.repr_list (repr rt) cmdargv))
  ∧ validate (repr rt) raw = inl e
  ∧ spawned (script rt user conf) = []
  ∧ exit_status (script rt user conf) = 1%Z
  ∧ ∀ config, read_config rt conf = inr config →
              stderr (script rt user conf) = [exn_str e].
Proof.
  intros Henv Hsplit.
  split; [exact (scan_error _ _ _ _ _ _ Hsplit)|].
  split; [intros cmdargv; exact (split_error_not_shape _ _ _ _ Hsplit)|].
  pose proof (validate_split_error (repr rt) _ _ Hsplit) as Hv.
  split; [exact Hv|].
  apply invalid_command_fails. by rewrite Henv.
Qed.

Lemma untokenizable_command_fails_witness :
  getenv_SSH_ORIGINAL_COMMAND Sample.rt_unbalanced = Some Sample.cmd_unbalanced
  ∧ Shlex.split Sample.cmd_unbalanced = inl (Raise ValueError "No closing quotation")
  ∧ spawned (script Sample.rt_unbalanced "user1" "acl") = []
  ∧ exit_status (script Sample.rt_unbalanced "user1" "acl") = 1%Z
  ∧ stderr (script Sample.rt_unbalanced "user1" "acl") = ["No closing quotation"].
Proof.
  destruct (untokenizable_command_fails Sample.rt_unbalanced "user1" "acl" _ _
              eq_refl eq_refl)
    as (_ & _ & _ & Hsp & Hex & Herr).
  exact (conj eq_refl (conj eq_refl (conj Hsp (conj Hex (Herr Sample.acl eq_refl))))).
Defined.

(** ** Look-ups in the configuration *)

Lemma parser_getitem_repos (repr : string -> string) (config : ConfigParser) (name : string) :
  parser_getitem repr config ("repos." +:+ name)
  = if has_section config ("repos." +:+ name) then inr ("repos." +:+ name)
    else inl (Raise KeyError (repr ("repos." +:+ name))).
Proof. unfold parser_getitem. simpl. by destruct (has_section _ _). Qed.

Lemma proxy_getitem_KeyError (repr : string -> string) (config : ConfigParser)
      (name key : string) :
  has_option config name key = false →
  proxy_getitem repr config name key = inl (Raise KeyError (repr key)).
Proof. intros H. unfold proxy_getitem. by rewrite H. Qed.

(** Outside the default section an option can only be read from a
    section that exists. *)
Lemma proxy_getitem_has_section (repr : string -> string) (config : ConfigParser)
      (name key value : string) :
  String.eqb name "" || String.eqb name default_section = false →
  proxy_getitem repr config name key = inr value →
  has_section config name = true.
Proof.
  intros Hname. unfold proxy_getitem, has_option, has_section. rewrite Hname.
  destruct (_sections config !! name) as [sectiondict|]; [|done].
  intros _. by apply bool_decide_eq_true.
Qed.

Lemma except_KeyError_inr {A} (r : exn + A) (msg : string) (a : A) :
  except_KeyError r msg = inr a ↔ r = inr a.
Proof. destruct r as [e|a']; simpl; [|done]. by case_decide. Qed.

(** What [resolve] returned, read backwards. *)
Lemma resolve_inr_inv (rt : runtime) (config : ConfigParser)
      (user repo_name repo_path access : string) :
  resolve rt config user repo_name = inr (repo_path, access) →
  has_section config ("repos." +:+ repo_name) = true
  ∧ (∃ location,
       proxy_getitem (repr rt) config ("repos." +:+ repo_name) "location" = inr location
       ∧ repo_path = Posixpath.abspath (host rt) (Posixpath.expanduser (host rt) location))
  ∧ proxy_getitem (repr rt) config ("repos." +:+ repo_name) user = inr access
  ∧ (access = "read" ∨ access = "write").
Proof.
  unfold resolve, mbind, exn_mbind, ebind. rewrite parser_getitem_repos.
  destruct (has_section config _) eqn:Hsec; simpl; [|done].
  destruct (except_KeyError (proxy_getitem _ _ _ "location") _) as [e|location] eqn:Hloc;
    [done|].
  apply except_KeyError_inr in Hloc.
  destruct (except_KeyError (proxy_getitem _ _ _ user) _) as [e|access'] eqn:Hacc; [done|].
  apply except_KeyError_inr in Hacc.
  case_bool_decide as Hin; simpl; [|done].
  intros [= <- <-]. repeat split; eauto.
  rewrite !elem_of_cons, elem_of_nil in Hin. tauto.
Qed.

(** The three ways [resolve] refuses once the section, the location and
    the grant have been looked up. *)
Lemma resolve_no_section (rt : runtime) (config : ConfigParser) (user repo_name : string) :
  has_section config ("repos." +:+ repo_name) = false →
  resolve rt config user repo_name = inl (Raise ValueError "No such repository").
Proof.
  intros H. unfold resolve, mbind, exn_mbind, ebind.
  rewrite parser_getitem_repos, H. done.
Qed.

Lemma resolve_no_grant (rt : runtime) (config : ConfigParser)
      (user repo_name location : string) :
  has_section config ("repos." +:+ repo_name) = true →
  proxy_getitem (repr rt) config ("repos." +:+ repo_name) "location" = inr location →
  has_option config ("repos." +:+ repo_name) user = false →
  resolve rt config user repo_name = inl (Raise ValueError "Access denied").
Proof.
  intros Hsec Hloc Hopt. unfold resolve, mbind, exn_mbind, ebind.
  rewrite parser_getitem_repos, Hsec. simpl. rewrite Hloc. simpl.
  rewrite (proxy_getitem_KeyError _ _ _ _ Hopt). done.
Qed.

Lemma resolve_bad_grant (rt : runtime) (config : ConfigParser)
      (user repo_name location access : string) :
  has_section config ("repos." +:+ repo_name) = true →
  proxy_getitem (repr rt) config ("repos." +:+ repo_name) "location" = inr location →
  proxy_getitem (repr rt) config ("repos." +:+ repo_name) user = inr access →
  access ≠ "read" → access ≠ "write" →
  resolve rt config user repo_name = inl (Raise ValueError "Access denied").
Proof.
  intros Hsec Hloc Hacc Hr Hw. unfold resolve, mbind, exn_mbind, ebind.
  rewrite parser_getitem_repos, Hsec. simpl. rewrite Hloc, Hacc. simpl.
  case_bool_decide as Hin; [|done].
  rewrite !elem_of_cons, elem_of_nil in Hin. tauto.
Qed.

(** Whatever the location look-up does, a grant that is neither ["read"]
    nor ["write"] never gets past [resolve]. *)
Lemma resolve_bad_grant_fails (rt : runtime) (config : ConfigParser)
      (user repo_name access : string) :
  proxy_getitem (repr rt) config ("repos." +:+ repo_name) user = inr access →
  access ≠ "read" → access ≠ "write" →
  ∃ e, resolve rt config user repo_name = inl e.
Proof.
  intros Hacc Hr Hw.
  destruct (resolve rt config user repo_name) as [e|[repo_path access']] eqn:Hres; [eauto|].
  apply resolve_inr_inv in Hres as (_ & _ & Hacc' & Hrw).
  rewrite Hacc in Hacc'. injection Hacc' as ->. by destruct Hrw.
Qed.

Lemma command_resolve_error (rt : runtime) (user conf token : string)
      (config : ConfigParser) (e : exn) :
  read_config rt conf = inr config →
  validate (repr rt) (default "?" (getenv_SSH_ORIGINAL_COMMAND rt)) = inr token →
  resolve rt config user (repo_name_of token) = inl e →
  command rt user conf = inl e.
Proof.
  intros H1 H2 H3. rewrite (command_validated _ _ _ _ _ H1 H2).
  unfold mbind, exn_mbind, ebind. by rewrite H3.
Qed.

Lemma command_resolved (rt : runtime) (user conf token repo_path access : string)
      (config : ConfigParser) :
  read_config rt conf = inr config →
  validate (repr rt) (default "?" (getenv_SSH_ORIGINAL_COMMAND rt)) = inr token →
  resolve rt config user (repo_name_of token) = inr (repo_path, access) →
  command rt user conf = build_cmd rt config repo_path access.
Proof.
  intros H1 H2 H3. rewrite (command_validated _ _ _ _ _ H1 H2).
  unfold mbind, exn_mbind, ebind. by rewrite H3.
Qed.

(** ** The repository name taken from the token *)

Lemma replace1_sep_cons (c : ascii) (s : string) :
  Py.replace1 "/" "" (String c s)
  = if Ascii.eqb c "/" then s else String c (Py.replace1 "/" "" s).
Proof.
  cbn [Py.replace1 Py.startswith]. rewrite (Ascii.eqb_sym "/" c), andb_true_r.
  by destruct (Ascii.eqb c "/").
Qed.

Lemma replace1_sep_absent (s : string) :
  Py.contains "/" s = false → Py.replace1 "/" "" s = s.
Proof.
  induction s as [|c s IH]; [done|].
  rewrite replace1_sep_cons. cbn [Py.contains].
  rewrite (Ascii.eqb_sym "/" c).
  destruct (Ascii.eqb c "/"); [done|]. intros H. by rewrite IH.
Qed.

Lemma append_cons (c : ascii) (s t : string) :
  String c s +:+ t = String c (s +:+ t).
Proof. reflexivity. Qed.

Lemma replace1_sep_first (before after : string) :
  Py.contains "/" before = false →
  Py.replace1 "/" "" (before +:+ "/" +:+ after) = before +:+ after.
Proof.
  induction before as [|c before IH]; [done|].
  cbn [Py.contains].
  rewrite (append_cons c before ("/" +:+ after)), (append_cons c before after).
  rewrite replace1_sep_cons.
  rewrite (Ascii.eqb_sym "/" c).
  destruct (Ascii.eqb c "/"); [done|]. intros H. by rewrite IH.
Qed.

(** C2, as the code has it.  The section looked up for an accepted token
    is ["repos."] followed by the token with its first ['/'] removed,
    wherever that ['/'] stands: a leading one is dropped, a token without
    any is kept as it is, and an inner one is dropped just the same. *)
Theorem repo_name_drops_first_separator
        (rt : runtime) (user conf token : string) (config : ConfigParser) :
  read_config rt conf = inr config →
  validate (repr rt) (default "?" (getenv_SSH_ORIGINAL_COMMAND rt)) = inr token →
  command rt user conf
  = ('(repo_path, access) ← resolve rt config user (Py.replace1 "/" "" token);
     build_cmd rt config repo_path access)
  ∧ (∀ rest, token = "/" +:+ rest → Py.replace1 "/" "" token = rest)
  ∧ (Py.contains "/" token = false → Py.replace1 "/" "" token = token)
  ∧ (∀ before after,
       token = before +:+ "/" +:+ after → Py.contains "/" before = false →
       Py.replace1 "/" "" token = before +:+ after).
Proof.
  intros Hread Hval. split; [exact (command_validated _ _ _ _ _ Hread Hval)|].
  split; [by intros rest ->|].
  split; [apply replace1_sep_absent|].
  intros before after ->. apply replace1_sep_first.
Qed.

Lemma repo_name_drops_first_separator_witness :
  read_config Sample.rt_leading_sep "acl" = inr Sample.acl
  ∧ validate (repr Sample.rt_leading_sep)
      (default "?" (getenv_SSH_ORIGINAL_COMMAND Sample.rt_leading_sep)) = inr "/myrepo1"
  ∧ Py.replace1 "/" "" "/myrepo1" = "myrepo1"
  ∧ command Sample.rt_leading_sep "user1" "acl"
    = ('(repo_path, access) ← resolve Sample.rt_leading_sep Sample.acl "user1"
                                (Py.replace1 "/" "" "/myrepo1");
       build_cmd Sample.rt_leading_sep Sample.acl repo_path access).
Proof.
  destruct (repo_name_drops_first_separator Sample.rt_leading_sep
              "user1" "acl" "/myrepo1" Sample.acl
              eq_refl eq_refl) as (Hcmd & Hlead & _ & _).
  exact (conj eq_refl (conj eq_refl (conj (Hlead "myrepo1" eq_refl) Hcmd))).
Defined.

(** C2 as stated fails: the token [my/repo1] has no leading separator,
    yet it is not used unchanged; the section consulted is
    [repos.myrepo1], and the repository of that section is served. *)
Lemma repo_name_inner_separator_counterexample :
  validate (repr Sample.rt_inner_sep)
    (default "?" (getenv_SSH_ORIGINAL_COMMAND Sample.rt_inner_sep)) = inr "my/repo1"
  ∧ Py.startswith "my/repo1" "/" = false
  ∧ repo_name_of "my/repo1" = "myrepo1"
  ∧ repo_name_of "my/repo1" ≠ "my/repo1"
  ∧ has_section Sample.acl "repos.my/repo1" = false
  ∧ spawned (script Sample.rt_inner_sep "user1" "acl") = [Sample.cmd_write].
Proof. vm_compute. repeat split; try reflexivity. discriminate. Qed.

(** ** The exit status *)

(** C3, as the code has it.  Once [main] has its argument vector, the exit
    status is 0 whenever [subprocess.run] returns, whatever the return
    code of the child, and 1 when [subprocess.run] raises. *)
Theorem exit_status_ignores_returncode (rt : runtime) (user conf : string) (cmd : list string) :
  command rt user conf = inr cmd →
  (∀ returncode,
     subprocess_run rt cmd = inr returncode →
     script rt user conf = {| trace := [Spawn cmd returncode]; exit_status := 0 |})
  ∧ (∀ e,
       subprocess_run rt cmd = inl e →
       script rt user conf = {| trace := [Stderr (exn_str e)]; exit_status := 1 |}).
Proof.
  intros Hcmd. rewrite (script_of_command _ _ _ _ Hcmd).
  split; [intros returncode -> | intros e ->]; reflexivity.
Qed.

Lemma exit_status_ignores_returncode_witness :
  command Sample.rt_myrepo1_killed "user1" "acl" = inr Sample.cmd_write
  ∧ subprocess_run Sample.rt_myrepo1_killed Sample.cmd_write = inr (-9)%Z
  ∧ script Sample.rt_myrepo1_killed "user1" "acl"
    = {| trace := [Spawn Sample.cmd_write (-9)]; exit_status := 0 |}.
Proof.
  destruct (exit_status_ignores_returncode Sample.rt_myrepo1_killed "user1" "acl"
              Sample.cmd_write eq_refl) as [Hret _].
  exact (conj eq_refl (conj eq_refl (Hret (-9)%Z eq_refl))).
Defined.

(** C3 as stated fails: the child ends with return code 1, the script
    with exit status 0. *)
Lemma exit_status_counterexample :
  command Sample.rt_myrepo1_failing "user1" "acl" = inr Sample.cmd_write
  ∧ subprocess_run Sample.rt_myrepo1_failing Sample.cmd_write = inr 1%Z
  ∧ trace (script Sample.rt_myrepo1_failing "user1" "acl") = [Spawn Sample.cmd_write 1]
  ∧ exit_status (script Sample.rt_myrepo1_failing "user1" "acl") = 0%Z
  ∧ ¬ (exit_status (script Sample.rt_myrepo1_failing "user1" "acl") = 0%Z ↔ 1%Z = 0%Z).
Proof.
  vm_compute. repeat split; try reflexivity.
  intros [H _]. by specialize (H eq_refl).
Qed.

(** ** Refusals *)

(** C4, as the code has it.  A repository without a section and a user
    without a grant both end in exit status 1 with nothing run, but the
    line on the error stream tells them apart: ["No such repository"] for
    the first, ["Access denied"] for the second. *)
Theorem missing_repository_and_missing_grant
        (rt1 rt2 : runtime) (user1 conf1 token1 user2 conf2 token2 location2 : string)
        (config1 config2 : ConfigParser) :
  read_config rt1 conf1 = inr config1 →
  validate (repr rt1) (default "?" (getenv_SSH_ORIGINAL_COMMAND rt1)) = inr token1 →
  has_section config1 ("repos." +:+ repo_name_of token1) = false →
  read_config rt2 conf2 = inr config2 →
  validate (repr rt2) (default "?" (getenv_SSH_ORIGINAL_COMMAND rt2)) = inr token2 →
  proxy_getitem (repr rt2) config2 ("repos." +:+ repo_name_of token2) "location"
  = inr location2 →
  has_option config2 ("repos." +:+ repo_name_of token2) user2 = false →
  script rt1 user1 conf1 = {| trace := [Stderr "No such repository"]; exit_status := 1 |}
  ∧ script rt2 user2 conf2 = {| trace := [Stderr "Access denied"]; exit_status := 1 |}
  ∧ exit_status (script rt1 user1 conf1) = exit_status (script rt2 user2 conf2)
  ∧ spawned (script rt1 user1 conf1) = []
  ∧ spawned (script rt2 user2 conf2) = []
  ∧ stderr (script rt1 user1 conf1) ≠ stderr (script rt2 user2 conf2).
Proof.
  intros Hread1 Hval1 Hsec1 Hread2 Hval2 Hloc2 Hopt2.
  pose proof (proxy_getitem_has_section _ _ ("repos." +:+ repo_name_of token2) _ _
                eq_refl Hloc2) as Hsec2.
  pose proof (script_of_command_error _ _ _ _
                (command_resolve_error _ user1 _ _ _ _ Hread1 Hval1
                   (resolve_no_section rt1 _ user1 _ Hsec1))) as H1.
  pose proof (script_of_command_error _ _ _ _
                (command_resolve_error _ user2 _ _ _ _ Hread2 Hval2
                   (resolve_no_grant rt2 _ user2 _ _ Hsec2 Hloc2 Hopt2))) as H2.
  rewrite H1, H2. simpl. repeat split; discriminate.
Qed.

Lemma missing_repository_and_missing_grant_witness :
  has_section Sample.acl "repos.myrepo3" = false
  ∧ has_section Sample.acl "repos.myrepo1" = true
  ∧ has_option Sample.acl "repos.myrepo1" "user4" = false
  ∧ script Sample.rt_myrepo3 "user4" "acl"
    = {| trace := [Stderr "No such repository"]; exit_status := 1 |}
  ∧ script Sample.rt_myrepo1 "user4" "acl"
    = {| trace := [Stderr "Access denied"]; exit_status := 1 |}.
Proof.
  destruct (missing_repository_and_missing_grant Sample.rt_myrepo3 Sample.rt_myrepo1
              "user4" "acl" "myrepo3" "user4" "acl" "myrepo1" "relative/path/to/repo"
              Sample.acl Sample.acl
              eq_refl eq_refl eq_refl eq_refl eq_refl eq_refl eq_refl)
    as (H1 & H2 & _).
  exact (conj eq_refl (conj eq_refl (conj eq_refl (conj H1 H2)))).
Defined.

(** C4 as stated fails: the same command shape, once for a repository
    that has no section and once for one where the user has no grant,
    gives two different lines on the error stream. *)
Lemma denial_messages_differ_counterexample :
  has_section Sample.acl "repos.myrepo3" = false
  ∧ has_section Sample.acl "repos.myrepo1" = true
  ∧ has_option Sample.acl "repos.myrepo1" "user4" = false
  ∧ stderr (script Sample.rt_myrepo3 "user4" "acl") = ["No such repository"]
  ∧ stderr (script Sample.rt_myrepo1 "user4" "acl") = ["Access denied"]
  ∧ stderr (script Sample.rt_myrepo3 "user4" "acl")
    ≠ stderr (script Sample.rt_myrepo1 "user4" "acl").
Proof. vm_compute. repeat split; try reflexivity. discriminate. Qed.

(** C5.  A grant that is neither ["read"] nor ["write"] never leads to a
    child process: the script exits with status 1, and when the section has
    its location the refusal is [ValueError('Access denied')]. *)
Theorem unrecognized_grant_denied
        (rt : runtime) (user conf token access : string) (config : ConfigParser) :
  read_config rt conf = inr config →
  validate (repr rt) (default "?" (getenv_SSH_ORIGINAL_COMMAND rt)) = inr token →
  proxy_getitem (repr rt) config ("repos." +:+ repo_name_of token) user = inr access →
  access ≠ "read" → access ≠ "write" →
  spawned (script rt user conf) = []
  ∧ exit_status (script rt user conf) = 1%Z
  ∧ ∀ location,
      proxy_getitem (repr rt) config ("repos." +:+ repo_name_of token) "location"
      = inr location →
      resolve rt config user (repo_name_of token) = inl (Raise ValueError "Access denied")
      ∧ script rt user conf = {| trace := [Stderr "Access denied"]; exit_status := 1 |}.
Proof.
  intros Hread Hval Hacc Hr Hw.
  pose proof (proxy_getitem_has_section _ _ ("repos." +:+ repo_name_of token) _ _
                eq_refl Hacc) as Hsec.
  destruct (resolve_bad_grant_fails rt config user _ _ Hacc Hr Hw) as [e He].
  destruct (no_spawn_of_command_error _ _ _ _
              (command_resolve_error _ user _ _ _ _ Hread Hval He)) as (Hsp & Hex & _).
  split; [exact Hsp|]. split; [exact Hex|].
  intros location Hloc.
  pose proof (resolve_bad_grant rt _ user _ _ _ Hsec Hloc Hacc Hr Hw) as Hres.
  split; [exact Hres|].
  exact (script_of_command_error _ _ _ _
           (command_resolve_error _ user _ _ _ _ Hread Hval Hres)).
Qed.

Lemma unrecognized_grant_denied_witness :
  proxy_getitem (repr Sample.rt_bad_grant) (Sample.acl_with "user5" "Write")
    "repos.myrepo1" "user5" = inr "Write"
  ∧ "Write" ≠ "read" ∧ "Write" ≠ "write"
  ∧ spawned (script Sample.rt_bad_grant "user5" "acl") = []
  ∧ script Sample.rt_bad_grant "user5" "acl"
    = {| trace := [Stderr "Access denied"]; exit_status := 1 |}.
Proof.
  assert (Hr : "Write" ≠ "read") by discriminate.
  assert (Hw : "Write" ≠ "write") by discriminate.
  destruct (unrecognized_grant_denied Sample.rt_bad_grant "user5" "acl" "myrepo1" "Write"
              (Sample.acl_with "user5" "Write")
              eq_refl eq_refl eq_refl Hr Hw) as (Hsp & _ & Hloc).
  destruct (Hloc "relative/path/to/repo" eq_refl) as [_ Hscript].
  exact (conj eq_refl (conj Hr (conj Hw (conj Hsp Hscript)))).
Defined.

(** ** The argument vector *)

Lemma build_cmd_write (rt : runtime) (config : ConfigParser) (repo_path : string) :
  build_cmd rt config repo_path "write" = inr ["hg"; "-R"; repo_path; "serve"; "--stdio"].
Proof. reflexivity. Qed.

Lemma build_cmd_read_no_sudo (rt : runtime) (config : ConfigParser) (repo_path : string) :
  has_option config "readonly" "sudo" = false →
  build_cmd rt config repo_path "read"
  = inl (Raise ValueError "Bad config: no readonly sudo user").
Proof.
  intros Hopt. unfold build_cmd, parser_getitem, mbind, exn_mbind, ebind. simpl.
  destruct (has_section config "readonly"); simpl; [|done].
  by rewrite (proxy_getitem_KeyError _ _ _ _ Hopt).
Qed.

Lemma build_cmd_read_sudo (rt : runtime) (config : ConfigParser)
      (repo_path sudo_user : string) :
  has_section config "readonly" = true →
  proxy_getitem (repr rt) config "readonly" "sudo" = inr sudo_user →
  build_cmd rt config repo_path "read"
  = inr ["sudo"; "--user=" +:+ sudo_user; "--"; "hg"; "-R"; repo_path; "serve"; "--stdio"].
Proof.
  intros Hsec Hsudo. unfold build_cmd, parser_getitem, mbind, exn_mbind, ebind. simpl.
  rewrite Hsec. simpl. by rewrite Hsudo.
Qed.

(** C6.  A read grant without a [sudo] option in a [readonly] section
    ends in [ValueError('Bad config: no readonly sudo user')]: nothing is
    run, with or without impersonation, and the exit status is 1. *)
Theorem read_grant_without_sudo_user_fails
        (rt : runtime) (user conf token repo_path : string) (config : ConfigParser) :
  read_config rt conf = inr config →
  validate (repr rt) (default "?" (getenv_SSH_ORIGINAL_COMMAND rt)) = inr token →
  resolve rt config user (repo_name_of token) = inr (repo_path, "read") →
  has_option config "readonly" "sudo" = false →
  command rt user conf = inl (Raise ValueError "Bad config: no readonly sudo user")
  ∧ script rt user conf
    = {| trace := [Stderr "Bad config: no readonly sudo user"]; exit_status := 1 |}
  ∧ spawned (script rt user conf) = [].
Proof.
  intros Hread Hval Hres Hopt.
  assert (Hcmd : command rt user conf
                 = inl (Raise ValueError "Bad config: no readonly sudo user")).
  { rewrite (command_resolved _ _ _ _ _ _ _ Hread Hval Hres).
    by apply build_cmd_read_no_sudo. }
  split; [exact Hcmd|].
  by rewrite (script_of_command_error _ _ _ _ Hcmd).
Qed.

Lemma read_grant_without_sudo_user_fails_witness :
  resolve Sample.rt_no_sudo Sample.acl_no_sudo "user2" "myrepo1"
  = inr ("/home/hg/relative/path/to/repo", "read")
  ∧ has_option Sample.acl_no_sudo "readonly" "sudo" = false
  ∧ script Sample.rt_no_sudo "user2" "acl"
    = {| trace := [Stderr "Bad config: no readonly sudo user"]; exit_status := 1 |}
  ∧ spawned (script Sample.rt_no_sudo "user2" "acl") = [].
Proof.
  destruct (read_grant_without_sudo_user_fails Sample.rt_no_sudo "user2" "acl" "myrepo1"
              "/home/hg/relative/path/to/repo" Sample.acl_no_sudo
              eq_refl eq_refl eq_refl eq_refl) as (_ & Hscript & Hsp).
  exact (conj eq_refl (conj eq_refl (conj Hscript Hsp))).
Defined.

(** C7.  A read grant with the sudo user [sudo_user] runs exactly
    [sudo --user=<sudo_user> -- hg -R <repo_path> serve --stdio], where
    [repo_path] is the resolved location of the repository. *)
Theorem read_grant_runs_hg_under_sudo
        (rt : runtime) (user conf token repo_path sudo_user : string)
        (config : ConfigParser) :
  read_config rt conf = inr config →
  validate (repr rt) (default "?" (getenv_SSH_ORIGINAL_COMMAND rt)) = inr token →
  resolve rt config user (repo_name_of token) = inr (repo_path, "read") →
  proxy_getitem (repr rt) config "readonly" "sudo" = inr sudo_user →
  let cmd := ["sudo"; "--user=" +:+ sudo_user; "--";
              "hg"; "-R"; repo_path; "serve"; "--stdio"] in
  command rt user conf = inr cmd
  ∧ (∀ returncode, subprocess_run rt cmd = inr returncode →
                   spawned (script rt user conf) = [cmd])
  ∧ (∀ e, subprocess_run rt cmd = inl e → spawned (script rt user conf) = [])
  ∧ ∃ location,
      proxy_getitem (repr rt) config ("repos." +:+ repo_name_of token) "location"
      = inr location
      ∧ repo_path = Posixpath.abspath (host rt) (Posixpath.expanduser (host rt) location).
Proof.
  intros Hread Hval Hres Hsudo cmd.
  pose proof (proxy_getitem_has_section _ _ "readonly" _ _ eq_refl Hsudo) as Hsec.
  assert (Hcmd : command rt user conf = inr cmd).
  { rewrite (command_resolved _ _ _ _ _ _ _ Hread Hval Hres).
    by apply build_cmd_read_sudo. }
  split; [exact Hcmd|].
  rewrite (script_of_command _ _ _ _ Hcmd).
  split; [by intros returncode ->|].
  split; [by intros e ->|].
  by destruct (resolve_inr_inv _ _ _ _ _ _ Hres) as (_ & Hloc & _).
Qed.

Lemma read_grant_runs_hg_under_sudo_witness :
  resolve Sample.rt_myrepo1 Sample.acl "user2" "myrepo1"
  = inr ("/home/hg/relative/path/to/repo", "read")
  ∧ proxy_getitem (repr Sample.rt_myrepo1) Sample.acl "readonly" "sudo" = inr "hgread"
  ∧ spawned (script Sample.rt_myrepo1 "user2" "acl") = [Sample.cmd_read].
Proof.
  destruct (read_grant_runs_hg_under_sudo Sample.rt_myrepo1 "user2" "acl" "myrepo1"
              "/home/hg/relative/path/to/repo" "hgread" Sample.acl
              eq_refl eq_refl eq_refl eq_refl) as (_ & Hrun & _).
  exact (conj eq_refl (conj eq_refl (Hrun 0%Z eq_refl))).
Defined.

(** ** The repository path *)

Lemma startswith_sep_inv (s : string) :
  Py.startswith s "/" = true → ∃ s', s = String "/" s'.
Proof.
  destruct s as [|c s']; [done|]. cbn [Py.startswith].
  rewrite andb_true_r. intros ->%Ascii.eqb_eq. eauto.
Qed.

(** [normpath] keeps the leading separator of an absolute path. *)
Lemma normpath_isabs (path : string) :
  Posixpath.isabs path = true → Posixpath.isabs (Posixpath.normpath path) = true.
Proof.
  intros [s' ->]%startswith_sep_inv. unfold Posixpath.normpath.
  change (String.eqb (String "/" s') "") with false.
  change (Py.startswith (String "/" s') Posixpath.sep) with true.
  cbv iota. by destruct (Py.startswith _ "//" && negb (Py.startswith _ "///")).
Qed.

Lemma join_isabs (a b : string) :
  Posixpath.isabs a = true → Posixpath.isabs (Posixpath.join a b) = true.
Proof.
  intros [a' ->]%startswith_sep_inv. unfold Posixpath.join.
  destruct (Py.startswith b Posixpath.sep) eqn:Hb; [exact Hb|].
  by destruct (String.eqb _ "" || Py.endswith _ "/").
Qed.

(** With an absolute working directory [abspath] returns an absolute path. *)
Lemma abspath_isabs (h : Posixpath.host) (path : string) :
  Posixpath.isabs (Posixpath.getcwd h) = true →
  Posixpath.isabs (Posixpath.abspath h path) = true.
Proof.
  intros Hcwd. unfold Posixpath.abspath.
  destruct (Posixpath.isabs path) eqn:Habs; simpl.
  - by apply normpath_isabs.
  - by apply normpath_isabs, join_isabs.
Qed.

Lemma expanduser_no_tilde (h : Posixpath.host) (path : string) :
  Py.startswith path "~" = false → Posixpath.expanduser h path = path.
Proof. intros H. unfold Posixpath.expanduser. by rewrite H. Qed.

(** ["~"] and ["~/..."] stand for [$HOME] without its trailing separators. *)
Lemma expanduser_home (h : Posixpath.host) (home rest : string) :
  Posixpath.environ_HOME h = Some home →
  rest = "" ∨ Py.startswith rest "/" = true →
  Posixpath.expanduser h ("~" +:+ rest)
  = if String.eqb (Py.rstrip "/" home +:+ rest) "" then "/"
    else Py.rstrip "/" home +:+ rest.
Proof.
  intros Hhome Hrest. unfold Posixpath.expanduser.
  change (Py.startswith ("~" +:+ rest) "~") with true.
  change (Py.drop 1 ("~" +:+ rest)) with rest.
  assert (Posixpath.find_sep_from 1 rest = 1%nat) as ->.
  { destruct Hrest as [-> | [s' ->]%startswith_sep_inv]; reflexivity. }
  simpl. by rewrite Hhome.
Qed.

(** C8.  A write grant runs exactly [hg -R <repo_path> serve --stdio], with
    nothing in front of it; [repo_path] is [abspath(expanduser(location))]:
    absolute, with ["~"] replaced by the home directory, and a relative
    location joined to the working directory. *)
Theorem write_grant_runs_hg_directly
        (rt : runtime) (user conf token repo_path : string) (config : ConfigParser) :
  read_config rt conf = inr config →
  validate (repr rt) (default "?" (getenv_SSH_ORIGINAL_COMMAND rt)) = inr token →
  resolve rt config user (repo_name_of token) = inr (repo_path, "write") →
  let cmd := ["hg"; "-R"; repo_path; "serve"; "--stdio"] in
  command rt user conf = inr cmd
  ∧ (∀ returncode, subprocess_run rt cmd = inr returncode →
                   spawned (script rt user conf) = [cmd])
  ∧ (∀ e, subprocess_run rt cmd = inl e → spawned (script rt user conf) = [])
  ∧ ∃ location,
      proxy_getitem (repr rt) config ("repos." +:+ repo_name_of token) "location"
      = inr location
      ∧ repo_path = Posixpath.abspath (host rt) (Posixpath.expanduser (host rt) location)
      ∧ (Posixpath.isabs (Posixpath.getcwd (host rt)) = true →
         Posixpath.isabs repo_path = true)
      ∧ (Py.startswith location "~" = false →
         repo_path
         = if Posixpath.isabs location then Posixpath.normpath location
           else Posixpath.normpath (Posixpath.join (Posixpath.getcwd (host rt)) location))
      ∧ (∀ home rest,
           Posixpath.environ_HOME (host rt) = Some home →
           location = "~" +:+ rest →
           rest = "" ∨ Py.startswith rest "/" = true →
           Posixpath.expanduser (host rt) location
           = if String.eqb (Py.rstrip "/" home +:+ rest) "" then "/"
             else Py.rstrip "/" home +:+ rest).
Proof.
  intros Hread Hval Hres cmd.
  assert (Hcmd : command rt user conf = inr cmd).
  { rewrite (command_resolved _ _ _ _ _ _ _ Hread Hval Hres). apply build_cmd_write. }
  split; [exact Hcmd|].
  rewrite (script_of_command _ _ _ _ Hcmd).
  split; [by intros returncode ->|].
  split; [by intros e ->|].
  destruct (resolve_inr_inv _ _ _ _ _ _ Hres) as (_ & (location & Hloc & ->) & _).
  exists location. split; [exact Hloc|]. split; [reflexivity|].
  split; [apply abspath_isabs|].
  split.
  - intros Htilde. rewrite (expanduser_no_tilde _ _ Htilde).
    unfold Posixpath.abspath. by destruct (Posixpath.isabs location).
  - intros home rest Hhome -> Hrest. by apply expanduser_home.
Qed.

Lemma write_grant_runs_hg_directly_witness :
  resolve Sample.rt_myrepo1 Sample.acl "user1" "myrepo1"
  = inr ("/home/hg/relative/path/to/repo", "write")
  ∧ proxy_getitem (repr Sample.rt_myrepo1) Sample.acl "repos.myrepo1" "location"
    = inr "relative/path/to/repo"
  ∧ spawned (script Sample.rt_myrepo1 "user1" "acl") = [Sample.cmd_write].
Proof.
  destruct (write_grant_runs_hg_directly Sample.rt_myrepo1 "user1" "acl" "myrepo1"
              "/home/hg/relative/path/to/repo" Sample.acl
              eq_refl eq_refl eq_refl) as (_ & Hrun & _).
  exact (conj eq_refl (conj eq_refl (Hrun 0%Z eq_refl))).
Defined.

(** ** Command lines made of plain words *)

Lemma snoc_append (tok : string) (c : ascii) (s : string) :
  Shlex.snoc tok c +:+ s = tok +:+ String c s.
Proof. unfold Shlex.snoc. induction tok as [|d tok IH]; [done|]. by rewrite !append_cons, IH. Qed.

Lemma is_plain_inv (c : ascii) :
  Words.is_plain c = true →
  Shlex.is_whitespace c = false ∧ Shlex.is_quote c = false ∧ Shlex.is_escape c = false.
Proof.
  unfold Words.is_plain. rewrite !andb_true_iff, !negb_true_iff. tauto.
Qed.

(** Inside a word, plain characters are appended to the token. *)
Lemma scan_word_plain (w : string) :
  ∀ esc quoted tok rest,
    Words.all_plain w = true →
    Shlex.scan Shlex.Word esc quoted tok (w +:+ rest)
    = Shlex.scan Shlex.Word esc quoted (tok +:+ w) rest.
Proof.
  induction w as [|c w IH]; intros esc quoted tok rest Hw.
  - replace (tok +:+ "") with tok; [done|].
    clear. induction tok as [|d tok IH]; [done|]. by rewrite append_cons, <- IH.
  - cbn [Words.all_plain] in Hw. apply andb_true_iff in Hw as [Hc Hw].
    destruct (is_plain_inv _ Hc) as (Hws & Hq & He).
    rewrite append_cons. cbn [Shlex.scan]. rewrite Hws, Hq, He.
    rewrite (IH _ _ _ _ Hw). by rewrite snoc_append.
Qed.

(** Between tokens, a word followed by the rest of the line starts a
    token that holds exactly that word. *)
Lemma scan_blank_word (w rest : string) :
  Words.is_word w = true →
  Shlex.scan Shlex.Blank None false "" (w +:+ rest)
  = Shlex.scan Shlex.Word None false w rest.
Proof.
  unfold Words.is_word. intros [Hne Hw]%andb_true_iff.
  destruct w as [|c w]; [done|].
  cbn [Words.all_plain] in Hw. apply andb_true_iff in Hw as [Hc Hw].
  destruct (is_plain_inv _ Hc) as (Hws & Hq & He).
  rewrite append_cons. cbn [Shlex.scan]. rewrite Hws, Hq, He.
  by rewrite (scan_word_plain _ _ _ _ _ Hw).
Qed.

Lemma join_cons_cons (sep x y : string) (l : list string) :
  Py.join sep (x :: y :: l) = x +:+ sep +:+ Py.join sep (y :: l).
Proof. reflexivity. Qed.

Lemma append_space (s : string) : " " +:+ s = String " " s.
Proof. reflexivity. Qed.

(** Joining words with single spaces and splitting the line again gives
    the words back. *)
Lemma split_join_words (ws : list string) :
  Forall (λ w, Words.is_word w = true) ws →
  Shlex.split (Py.join " " ws) = inr ws.
Proof.
  unfold Shlex.split. induction 1 as [|w ws Hw Hws IH]; [done|].
  assert (Hne : String.eqb w "" = false).
  { unfold Words.is_word in Hw. apply andb_true_iff in Hw as [Hne _].
    by apply negb_true_iff. }
  destruct ws as [|w' ws].
  - cbn [Py.join]. replace w with (w +:+ "") at 1.
    + rewrite (scan_blank_word _ _ Hw). cbn [Shlex.scan]. by rewrite Hne.
    + clear. induction w as [|d w IH]; [done|]. by rewrite append_cons, IH.
  - rewrite join_cons_cons, (scan_blank_word _ _ Hw), append_space.
    cbn [Shlex.scan]. change (Shlex.is_whitespace " ") with true. cbv iota.
    rewrite Hne. cbn [negb orb]. by rewrite IH.
Qed.

(** X1.  A command line made of words separated by single spaces is
    accepted exactly when the words are [hg], [-R], a repository token,
    [serve] and [--stdio]; the token is then the third word. *)
Theorem validate_word_line (repr : string -> string) (ws : list string) (token : string) :
  Forall (λ w, Words.is_word w = true) ws →
  validate repr (Py.join " " ws) = inr token
  ↔ ws = ["hg"; "-R"; token; "serve"; "--stdio"].
Proof.
  intros Hws. pose proof (split_join_words ws Hws) as Hsplit. split.
  - intros Hv%validate_inr_inv. rewrite Hsplit in Hv. by injection Hv.
  - intros ->. by apply validate_accept.
Qed.

Lemma validate_word_line_witness :
  Forall (λ w, Words.is_word w = true) ["hg"; "-R"; "myrepo1"; "serve"; "--stdio"]
  ∧ validate Sample.quote "hg -R myrepo1 serve --stdio" = inr "myrepo1".
Proof.
  assert (Hws : Forall (λ w, Words.is_word w = true)
                  ["hg"; "-R"; "myrepo1"; "serve"; "--stdio"])
    by (repeat constructor).
  exact (conj Hws
           (proj2 (validate_word_line Sample.quote _ "myrepo1" Hws) eq_refl)).
Defined.

(** ** What main can run *)

Lemma build_cmd_inr_inv (rt : runtime) (config : ConfigParser)
      (repo_path access : string) (cmd : list string) :
  build_cmd rt config repo_path access = inr cmd →
  (access ≠ "read" ∧ cmd = ["hg"; "-R"; repo_path; "serve"; "--stdio"])
  ∨ (access = "read"
     ∧ ∃ sudo_user,
         proxy_getitem (repr rt) config "readonly" "sudo" = inr sudo_user
         ∧ cmd = ["sudo"; "--user=" +:+ sudo_user; "--";
                  "hg"; "-R"; repo_path; "serve"; "--stdio"]).
Proof.
  unfold build_cmd. destruct (String.eqb_spec access "read") as [->|Hne].
  - unfold mbind, exn_mbind, ebind.
    destruct (except_KeyError _ _) as [e|sudo_user] eqn:Hsudo; [done|].
    apply except_KeyError_inr in Hsudo. intros [= <-]. right. split; [done|].
    exists sudo_user. split; [|done].
    unfold parser_getitem in Hsudo.
    by destruct (negb (String.eqb "readonly" default_section)
                 && negb (has_section config "readonly")).
  - intros [= <-]. by left.
Qed.

Lemma command_inr_inv (rt : runtime) (user conf : string) (cmd : list string) :
  command rt user conf = inr cmd →
  ∃ config token repo_path access,
    read_config rt conf = inr config
    ∧ validate (repr rt) (default "?" (getenv_SSH_ORIGINAL_COMMAND rt)) = inr token
    ∧ resolve rt config user (repo_name_of token) = inr (repo_path, access)
    ∧ build_cmd rt config repo_path access = inr cmd.
Proof.
  unfold command, mbind, exn_mbind, ebind.
  destruct (read_config rt conf) as [e|config]; [done|].
  destruct (validate _ _) as [e|token]; [done|].
  destruct (resolve _ _ _ _) as [e|[repo_path access]] eqn:Hres; [done|].
  intros Hcmd. by exists config, token, repo_path, access.
Qed.

Lemma spawned_inv (rt : runtime) (user conf : string) (argv : list string) :
  argv ∈ spawned (script rt user conf) → command rt user conf = inr argv.
Proof.
  destruct (command rt user conf) as [e|cmd] eqn:Hcmd.
  - rewrite (script_of_command_error _ _ _ _ Hcmd). by intros ?%elem_of_nil.
  - rewrite (script_of_command _ _ _ _ Hcmd).
    destruct (subprocess_run rt cmd); [by intros ?%elem_of_nil|].
    cbn. by intros ->%list_elem_of_singleton.
Qed.

(** X2.  Whatever the script runs was granted by the configuration: the
    command was [hg -R <token> serve --stdio], the path is the resolved
    [location] of the section the token names, and the process is either
    [hg] for a user whose grant there is ["write"] or [hg] under [sudo]
    for a user whose grant is ["read"]. *)
Theorem spawned_command_authorised (rt : runtime) (user conf : string) (argv : list string) :
  argv ∈ spawned (script rt user conf) →
  ∃ config token location,
    read_config rt conf = inr config
    ∧ Shlex.split (default "?" (getenv_SSH_ORIGINAL_COMMAND rt))
      = inr ["hg"; "-R"; token; "serve"; "--stdio"]
    ∧ proxy_getitem (repr rt) config ("repos." +:+ repo_name_of token) "location"
      = inr location
    ∧ ((proxy_getitem (repr rt) config ("repos." +:+ repo_name_of token) user = inr "write"
        ∧ argv = ["hg"; "-R";
                  Posixpath.abspath (host rt) (Posixpath.expanduser (host rt) location);
                  "serve"; "--stdio"])
       ∨ (proxy_getitem (repr rt) config ("repos." +:+ repo_name_of token) user = inr "read"
          ∧ ∃ sudo_user,
              proxy_getitem (repr rt) config "readonly" "sudo" = inr sudo_user
              ∧ argv = ["sudo"; "--user=" +:+ sudo_user; "--"; "hg"; "-R";
                        Posixpath.abspath (host rt)
                          (Posixpath.expanduser (host rt) location);
                        "serve"; "--stdio"])).
Proof.
  intros Hin%spawned_inv.
  destruct (command_inr_inv _ _ _ _ Hin)
    as (config & token & repo_path & access & Hread & Hval & Hres & Hbuild).
  destruct (resolve_inr_inv _ _ _ _ _ _ Hres) as (_ & (location & Hloc & ->) & Hacc & Hrw).
  exists config, token, location.
  split; [exact Hread|]. split; [by apply validate_inr_inv in Hval|].
  split; [exact Hloc|].
  destruct (build_cmd_inr_inv _ _ _ _ _ Hbuild) as [[Hne ->] | [-> (u & Hsudo & ->)]].
  - left. destruct Hrw as [->| ->]; [done|]. by split.
  - right. split; [exact Hacc|]. by exists u.
Qed.

Lemma spawned_command_authorised_witness :
  Sample.cmd_read ∈ spawned (script Sample.rt_myrepo1 "user2" "acl")
  ∧ ∃ config token location,
      read_config Sample.rt_myrepo1 "acl" = inr config
      ∧ Shlex.split (default "?" (getenv_SSH_ORIGINAL_COMMAND Sample.rt_myrepo1))
        = inr ["hg"; "-R"; token; "serve"; "--stdio"]
      ∧ proxy_getitem (repr Sample.rt_myrepo1) config ("repos." +:+ repo_name_of token)
          "location" = inr location
      ∧ ((proxy_getitem (repr Sample.rt_myrepo1) config
            ("repos." +:+ repo_name_of token) "user2" = inr "write"
          ∧ Sample.cmd_read
            = ["hg"; "-R";
               Posixpath.abspath (host Sample.rt_myrepo1)
                 (Posixpath.expanduser (host Sample.rt_myrepo1) location);
               "serve"; "--stdio"])
         ∨ (proxy_getitem (repr Sample.rt_myrepo1) config
              ("repos." +:+ repo_name_of token) "user2" = inr "read"
            ∧ ∃ sudo_user,
                proxy_getitem (repr Sample.rt_myrepo1) config "readonly" "sudo"
                = inr sudo_user
                ∧ Sample.cmd_read
                  = ["sudo"; "--user=" +:+ sudo_user; "--"; "hg"; "-R";
                     Posixpath.abspath (host Sample.rt_myrepo1)
                       (Posixpath.expanduser (host Sample.rt_myrepo1) location);
                     "serve"; "--stdio"])).
Proof.
  assert (Hin : Sample.cmd_read ∈ spawned (script Sample.rt_myrepo1 "user2" "acl"))
    by (apply list_elem_of_singleton; reflexivity).
  exact (conj Hin (spawned_command_authorised Sample.rt_myrepo1 "user2" "acl" _ Hin)).
Defined.


(** X4.  A section without a [location] is refused as a configuration
    error for every user, whatever the user's grant in that section. *)
Theorem missing_location_refused
        (rt : runtime) (user conf token : string) (config : ConfigParser) :
  read_config rt conf = inr config →
  validate (repr rt) (default "?" (getenv_SSH_ORIGINAL_COMMAND rt)) = inr token →
  has_section config ("repos." +:+ repo_name_of token) = true →
  has_option config ("repos." +:+ repo_name_of token) "location" = false →
  script rt user conf
  = {| trace := [Stderr "Bad config: no location for repository"]; exit_status := 1 |}.
Proof.
  intros Hread Hval Hsec Hopt.
  apply script_of_command_error with (e := Raise ValueError _).
  apply (command_resolve_error _ _ _ _ _ _ Hread Hval).
  unfold resolve, mbind, exn_mbind, ebind.
  rewrite parser_getitem_repos, Hsec. simpl.
  by rewrite (proxy_getitem_KeyError _ _ _ _ Hopt).
Qed.

Lemma missing_location_refused_witness :
  has_section Sample.acl_no_location "repos.myrepo1" = true
  ∧ has_option Sample.acl_no_location "repos.myrepo1" "location" = false
  ∧ proxy_getitem Sample.quote Sample.acl_no_location "repos.myrepo1" "user1" = inr "write"
  ∧ script Sample.rt_no_location "user1" "acl"
    = {| trace := [Stderr "Bad config: no location for repository"]; exit_status := 1 |}.
Proof.
  exact (conj eq_refl (conj eq_refl (conj eq_refl
           (missing_location_refused Sample.rt_no_location "user1" "acl" "myrepo1"
              Sample.acl_no_location eq_refl eq_refl eq_refl eq_refl)))).
Defined.

(** X5.  With a read grant, [hg] is never run directly: whatever is run
    starts with [sudo --user=<sudo user> --]. *)
Theorem read_grant_never_runs_hg_directly
        (rt : runtime) (user conf token repo_path : string) (config : ConfigParser)
        (argv : list string) :
  read_config rt conf = inr config →
  validate (repr rt) (default "?" (getenv_SSH_ORIGINAL_COMMAND rt)) = inr token →
  resolve rt config user (repo_name_of token) = inr (repo_path, "read") →
  argv ∈ spawned (script rt user conf) →
  ∃ sudo_user,
    proxy_getitem (repr rt) config "readonly" "sudo" = inr sudo_user
    ∧ argv = ["sudo"; "--user=" +:+ sudo_user; "--";
              "hg"; "-R"; repo_path; "serve"; "--stdio"].
Proof.
  intros Hread Hval Hres Hin%spawned_inv.
  rewrite (command_resolved _ _ _ _ _ _ _ Hread Hval Hres) in Hin.
  by destruct (build_cmd_inr_inv _ _ _ _ _ Hin) as [[Hne _] | [_ Hsudo]].
Qed.

Lemma read_grant_never_runs_hg_directly_witness :
  resolve Sample.rt_myrepo1 Sample.acl "user2" "myrepo1"
  = inr ("/home/hg/relative/path/to/repo", "read")
  ∧ Sample.cmd_read ∈ spawned (script Sample.rt_myrepo1 "user2" "acl")
  ∧ ∃ sudo_user,
      proxy_getitem (repr Sample.rt_myrepo1) Sample.acl "readonly" "sudo" = inr sudo_user
      ∧ Sample.cmd_read
        = ["sudo"; "--user=" +:+ sudo_user; "--";
           "hg"; "-R"; "/home/hg/relative/path/to/repo"; "serve"; "--stdio"].
Proof.
  assert (Hin : Sample.cmd_read ∈ spawned (script Sample.rt_myrepo1 "user2" "acl"))
    by (apply list_elem_of_singleton; reflexivity).
  exact (conj eq_refl (conj Hin
           (read_grant_never_runs_hg_directly Sample.rt_myrepo1 "user2" "acl" "myrepo1"
              "/home/hg/relative/path/to/repo" Sample.acl Sample.cmd_read
              eq_refl eq_refl eq_refl Hin))).
Defined.

(** ** User names and letter case *)

Lemma lower_char_idem (c : ascii) : Py.lower_char (Py.lower_char c) = Py.lower_char c.
Proof. destruct c as [[] [] [] [] [] [] [] []]; reflexivity. Qed.

Lemma lower_idem (s : string) : Py.lower (Py.lower s) = Py.lower s.
Proof. induction s as [|c s IH]; [done|]. cbn [Py.lower]. by rewrite lower_char_idem, IH. Qed.

Lemma has_option_optionxform (config : ConfigParser) (name key key' : string) :
  optionxform key = optionxform key' →
  has_option config name key = has_option config name key'.
Proof. intros H. unfold has_option. by rewrite H. Qed.

Lemma get_optionxform (repr : string -> string) (config : ConfigParser)
      (name key key' : string) :
  optionxform key = optionxform key' →
  get repr config name key = get repr config name key'.
Proof. intros H. unfold get. by rewrite H. Qed.

Lemma except_proxy_getitem_optionxform (repr : string -> string) (config : ConfigParser)
      (name key key' msg : string) :
  optionxform key = optionxform key' →
  except_KeyError (proxy_getitem repr config name key) msg
  = except_KeyError (proxy_getitem repr config name key') msg.
Proof.
  intros H. unfold proxy_getitem.
  rewrite (has_option_optionxform _ _ _ _ H), (get_optionxform _ _ _ _ _ H).
  by destruct (has_option config name key').
Qed.

Lemma resolve_optionxform (rt : runtime) (config : ConfigParser)
      (user user' repo_name : string) :
  optionxform user = optionxform user' →
  resolve rt config user repo_name = resolve rt config user' repo_name.
Proof.
  intros H. unfold resolve, mbind, exn_mbind, ebind.
  destruct (except_KeyError (parser_getitem _ _ _) _) as [e|repo_conf]; [done|].
  destruct (except_KeyError (proxy_getitem _ _ _ "location") _) as [e|location]; [done|].
  by rewrite (except_proxy_getitem_optionxform _ _ _ _ _ "Access denied" H).
Qed.

Lemma script_of_equal_command (rt rt' : runtime) (user user' conf conf' : string) :
  subprocess_run rt = subprocess_run rt' →
  command rt user conf = command rt' user' conf' →
  script rt user conf = script rt' user' conf'.
Proof.
  intros Hrun Hcmd. unfold script, main, bind, lift, run. by rewrite Hcmd, Hrun.
Qed.

(** X6.  The grant is looked up under the lower-cased user name: two
    user names that differ only in the case of their letters get the same
    outcome from the same run. *)
Theorem user_name_case_ignored (rt : runtime) (user user' conf : string) :
  Py.lower user = Py.lower user' →
  script rt user conf = script rt user' conf.
Proof.
  intros Hlower. apply script_of_equal_command; [done|].
  unfold command, mbind, exn_mbind, ebind.
  destruct (read_config rt conf) as [e|config]; [done|].
  destruct (validate _ _) as [e|token]; [done|].
  by rewrite (resolve_optionxform rt config user user' _ Hlower).
Qed.

Lemma user_name_case_ignored_witness :
  Py.lower "User1" = Py.lower "user1"
  ∧ script Sample.rt_myrepo1 "User1" "acl" = script Sample.rt_myrepo1 "user1" "acl"
  ∧ spawned (script Sample.rt_myrepo1 "User1" "acl") = [Sample.cmd_write].
Proof.
  pose proof (user_name_case_ignored Sample.rt_myrepo1 "User1" "user1" "acl" eq_refl) as H.
  exact (conj eq_refl (conj H eq_refl)).
Defined.

(** ** Values read literally, and the default section *)

Lemma contains_percent_cons (c : ascii) (s : string) :
  Py.contains "%" (String c s) = false →
  Ascii.eqb c "%" = false ∧ Py.contains "%" s = false.
Proof.
  cbn [Py.contains]. rewrite (Ascii.eqb_sym "%" c). by destruct (Ascii.eqb c "%").
Qed.

(** A value without ['%'] is its own interpolation. *)
Lemma interpolate_literal (repr : string -> string) (option section rawval : string)
      (map : gmap string string) (levels : nat) (value : string) :
  Py.contains "%" value = false →
  interpolate_some repr option section rawval map (S levels) value = inr value.
Proof.
  induction value as [|c value IH]; [done|].
  intros [Hc Hvalue]%contains_percent_cons.
  specialize (IH Hvalue). cbn [interpolate_some] in IH |- *.
  by rewrite Hc, IH.
Qed.

Lemma proxy_getitem_literal (repr : string -> string) (config : ConfigParser)
      (name key value : string) (sectiondict : gmap string string) :
  String.eqb name "" || String.eqb name default_section = false →
  _sections config !! name = Some sectiondict →
  (sectiondict ∪ _defaults config) !! optionxform key = Some value →
  Py.contains "%" value = false →
  proxy_getitem repr config name key = inr value.
Proof.
  intros Hname Hsec Hlookup Hvalue.
  unfold proxy_getitem, has_option, get, unify_values. rewrite Hname, Hsec, Hlookup.
  assert (bool_decide (is_Some (sectiondict !! optionxform key))
          || bool_decide (is_Some (_defaults config !! optionxform key)) = true) as ->.
  { apply lookup_union_Some_raw in Hlookup as [H | [_ H]]; apply orb_true_iff;
      [left | right]; by apply bool_decide_eq_true. }
  cbn [negb]. exact (interpolate_literal repr _ _ _ _ 9 _ Hvalue).
Qed.

Lemma has_section_lookup (config : ConfigParser) (name : string)
      (sectiondict : gmap string string) :
  _sections config !! name = Some sectiondict → has_section config name = true.
Proof. intros H. unfold has_section. apply bool_decide_eq_true. by rewrite H. Qed.

Lemma resolve_literal (rt : runtime) (config : ConfigParser)
      (user repo_name location access : string) (sectiondict : gmap string string) :
  _sections config !! ("repos." +:+ repo_name) = Some sectiondict →
  (sectiondict ∪ _defaults config) !! "location" = Some location →
  Py.contains "%" location = false →
  (sectiondict ∪ _defaults config) !! Py.lower user = Some access →
  access = "read" ∨ access = "write" →
  resolve rt config user repo_name
  = inr (Posixpath.abspath (host rt) (Posixpath.expanduser (host rt) location), access).
Proof.
  intros Hsec Hloc Hlocv Hacc Hrw. unfold resolve, mbind, exn_mbind, ebind.
  rewrite parser_getitem_repos, (has_section_lookup _ _ _ Hsec). simpl.
  rewrite (proxy_getitem_literal _ _ ("repos." +:+ repo_name) "location" _ _
             eq_refl Hsec Hloc Hlocv). simpl.
  rewrite (proxy_getitem_literal _ _ ("repos." +:+ repo_name) user access _
             eq_refl Hsec Hacc); [|by destruct Hrw as [-> | ->]].
  simpl. by destruct Hrw as [-> | ->].
Qed.

(** X7.  Options of the [DEFAULT] section count in every repository
    section that does not set them itself: a user whose grant, found in
    the section or else in [DEFAULT], is ["write"] gets [hg] run on the
    location found the same way. *)
Theorem write_grant_from_section_or_default
        (rt : runtime) (user conf token location : string) (config : ConfigParser)
        (sectiondict : gmap string string) :
  read_config rt conf = inr config →
  validate (repr rt) (default "?" (getenv_SSH_ORIGINAL_COMMAND rt)) = inr token →
  _sections config !! ("repos." +:+ repo_name_of token) = Some sectiondict →
  (sectiondict ∪ _defaults config) !! "location" = Some location →
  Py.contains "%" location = false →
  (sectiondict ∪ _defaults config) !! Py.lower user = Some "write" →
  command rt user conf
  = inr ["hg"; "-R";
         Posixpath.abspath (host rt) (Posixpath.expanduser (host rt) location);
         "serve"; "--stdio"].
Proof.
  intros Hread Hval Hsec Hloc Hlocv Hacc.
  rewrite (command_resolved _ _ _ _ _ _ _ Hread Hval
             (resolve_literal rt _ user _ _ "write" _ Hsec Hloc Hlocv Hacc (or_intror eq_refl))).
  apply build_cmd_write.
Qed.

Lemma write_grant_from_section_or_default_witness :
  _sections Sample.acl_defaults !! "repos.scratch" = Some {["user2" := "read"]}
  ∧ _defaults Sample.acl_defaults !! "admin" = Some "write"
  ∧ _defaults Sample.acl_defaults !! "location" = Some "/srv/hg"
  ∧ command Sample.rt_scratch "Admin" "acl" = inr ["hg"; "-R"; "/srv/hg"; "serve"; "--stdio"].
Proof.
  exact (conj eq_refl (conj eq_refl (conj eq_refl
           (write_grant_from_section_or_default Sample.rt_scratch "Admin" "acl" "scratch"
              "/srv/hg" Sample.acl_defaults {["user2" := "read"]}
              eq_refl eq_refl eq_refl eq_refl eq_refl eq_refl)))).
Defined.

(** X8.  The same for a read grant: with a [sudo] option found in the
    [readonly] section or else in [DEFAULT], [hg] is run under that user. *)
Theorem read_grant_from_section_or_default
        (rt : runtime) (user conf token location sudo_user : string)
        (config : ConfigParser) (sectiondict readonly : gmap string string) :
  read_config rt conf = inr config →
  validate (repr rt) (default "?" (getenv_SSH_ORIGINAL_COMMAND rt)) = inr token →
  _sections config !! ("repos." +:+ repo_name_of token) = Some sectiondict →
  (sectiondict ∪ _defaults config) !! "location" = Some location →
  Py.contains "%" location = false →
  (sectiondict ∪ _defaults config) !! Py.lower user = Some "read" →
  _sections config !! "readonly" = Some readonly →
  (readonly ∪ _defaults config) !! "sudo" = Some sudo_user →
  Py.contains "%" sudo_user = false →
  command rt user conf
  = inr ["sudo"; "--user=" +:+ sudo_user; "--"; "hg"; "-R";
         Posixpath.abspath (host rt) (Posixpath.expanduser (host rt) location);
         "serve"; "--stdio"].
Proof.
  intros Hread Hval Hsec Hloc Hlocv Hacc Hro Hsudo Hsudov.
  rewrite (command_resolved _ _ _ _ _ _ _ Hread Hval
             (resolve_literal rt _ user _ _ "read" _ Hsec Hloc Hlocv Hacc (or_introl eq_refl))).
  apply build_cmd_read_sudo; [by apply (has_section_lookup _ _ readonly)|].
  by apply (proxy_getitem_literal _ _ "readonly" "sudo" _ readonly).
Qed.

Lemma read_grant_from_section_or_default_witness :
  _sections Sample.acl_defaults !! "repos.scratch" = Some {["user2" := "read"]}
  ∧ _defaults Sample.acl_defaults !! "location" = Some "/srv/hg"
  ∧ command Sample.rt_scratch "user2" "acl"
    = inr ["sudo"; "--user=hgread"; "--"; "hg"; "-R"; "/srv/hg"; "serve"; "--stdio"].
Proof.
  exact (conj eq_refl (conj eq_refl
           (read_grant_from_section_or_default Sample.rt_scratch "user2" "acl" "scratch"
              "/srv/hg" "hgread" Sample.acl_defaults {["user2" := "read"]}
              {["sudo" := "hgread"]}
              eq_refl eq_refl eq_refl eq_refl eq_refl eq_refl eq_refl eq_refl eq_refl))).
Defined.

(** ** The leading separator of the token *)

Lemma command_with_command (rt : runtime) (user conf raw : string) :
  command (Words.with_command rt (Some raw)) user conf
  = (config ← read_config rt conf;
     token ← validate (repr rt) raw;
     '(repo_path, access) ← resolve rt config user (repo_name_of token);
     build_cmd rt config repo_path access).
Proof. reflexivity. Qed.

Lemma command_of_equal_name (rt : runtime) (user conf raw raw' token token' : string) :
  validate (repr rt) raw = inr token →
  validate (repr rt) raw' = inr token' →
  repo_name_of token = repo_name_of token' →
  command (Words.with_command rt (Some raw)) user conf
  = command (Words.with_command rt (Some raw')) user conf.
Proof.
  intros Hv Hv' Hname. rewrite !command_with_command.
  unfold mbind, exn_mbind, ebind.
  destruct (read_config rt conf) as [e|config]; [done|].
  by rewrite Hv, Hv', Hname.
Qed.

(** X9.  A repository may be named with or without a leading ['/']: for a
    name without ['/'], the commands [hg -R /<name> serve --stdio] and
    [hg -R <name> serve --stdio] have the same outcome. *)
Theorem leading_separator_optional (rt : runtime) (user conf name : string) :
  Words.is_word name = true →
  Py.contains "/" name = false →
  script (Words.with_command rt (Some ("hg -R /" +:+ name +:+ " serve --stdio"))) user conf
  = script (Words.with_command rt (Some ("hg -R " +:+ name +:+ " serve --stdio"))) user conf.
Proof.
  intros Hword Hsep.
  assert (Hword' : Words.is_word ("/" +:+ name) = true).
  { unfold Words.is_word in *. apply andb_true_iff in Hword as [_ Hplain].
    rewrite append_cons. exact Hplain. }
  assert (Hv' : validate (repr rt) ("hg -R /" +:+ name +:+ " serve --stdio")
                = inr ("/" +:+ name)).
  { change ("hg -R /" +:+ name +:+ " serve --stdio")
      with (Py.join " " ["hg"; "-R"; "/" +:+ name; "serve"; "--stdio"]).
    refine (proj2 (validate_word_line _ _ _ _) eq_refl). by repeat constructor. }
  assert (Hv : validate (repr rt) ("hg -R " +:+ name +:+ " serve --stdio") = inr name).
  { change ("hg -R " +:+ name +:+ " serve --stdio")
      with (Py.join " " ["hg"; "-R"; name; "serve"; "--stdio"]).
    refine (proj2 (validate_word_line _ _ _ _) eq_refl). by repeat constructor. }
  apply script_of_equal_command; [done|].
  apply (command_of_equal_name _ _ _ _ _ _ _ Hv' Hv).
  unfold repo_name_of, Posixpath.sep. by rewrite (replace1_sep_absent name Hsep).
Qed.

Lemma leading_separator_optional_witness :
  Words.is_word "myrepo1" = true
  ∧ Py.contains "/" "myrepo1" = false
  ∧ script (Words.with_command Sample.rt_myrepo1 (Some "hg -R /myrepo1 serve --stdio"))
      "user1" "acl"
    = script (Words.with_command Sample.rt_myrepo1 (Some "hg -R myrepo1 serve --stdio"))
        "user1" "acl"
  ∧ spawned (script (Words.with_command Sample.rt_myrepo1
                       (Some "hg -R /myrepo1 serve --stdio")) "user1" "acl")
    = [Sample.cmd_write].
Proof.
  pose proof (leading_separator_optional Sample.rt_myrepo1 "user1" "acl" "myrepo1"
                eq_refl eq_refl) as H.
  exact (conj eq_refl (conj eq_refl (conj H eq_refl))).
Defined.

(** ** The path given to hg *)

(** X10.  When the working directory is absolute, the repository path in
    every command the script runs is absolute. *)
Theorem spawned_path_absolute (rt : runtime) (user conf : string) (argv : list string) :
  Posixpath.isabs (Posixpath.getcwd (host rt)) = true →
  argv ∈ spawned (script rt user conf) →
  ∃ repo_path,
    Posixpath.isabs repo_path = true
    ∧ (argv = ["hg"; "-R"; repo_path; "serve"; "--stdio"]
       ∨ ∃ sudo_user, argv = ["sudo"; "--user=" +:+ sudo_user; "--";
                              "hg"; "-R"; repo_path; "serve"; "--stdio"]).
Proof.
  intros Hcwd Hin%spawned_inv.
  destruct (command_inr_inv _ _ _ _ Hin)
    as (config & token & repo_path & access & _ & _ & Hres & Hbuild).
  destruct (resolve_inr_inv _ _ _ _ _ _ Hres) as (_ & (location & _ & ->) & _).
  eexists. split; [by apply abspath_isabs|].
  destruct (build_cmd_inr_inv _ _ _ _ _ Hbuild) as [[_ ->] | [_ (u & _ & ->)]]; eauto.
Qed.

Lemma spawned_path_absolute_witness :
  Posixpath.isabs (Posixpath.getcwd (host Sample.rt_myrepo1)) = true
  ∧ Sample.cmd_write ∈ spawned (script Sample.rt_myrepo1 "user1" "acl")
  ∧ ∃ repo_path,
      Posixpath.isabs repo_path = true
      ∧ (Sample.cmd_write = ["hg"; "-R"; repo_path; "serve"; "--stdio"]
         ∨ ∃ sudo_user, Sample.cmd_write = ["sudo"; "--user=" +:+ sudo_user; "--";
                                            "hg"; "-R"; repo_path; "serve"; "--stdio"]).
Proof.
  assert (Hin : Sample.cmd_write ∈ spawned (script Sample.rt_myrepo1 "user1" "acl"))
    by (apply list_elem_of_singleton; reflexivity).
  exact (conj eq_refl (conj Hin
           (spawned_path_absolute Sample.rt_myrepo1 "user1" "acl" _ eq_refl Hin))).
Defined.

(** ** Quoted tokens *)

Lemma append_nil_r (s : string) : s +:+ "" = s.
Proof. induction s as [|c s IH]; [done|]. by rewrite append_cons, IH. Qed.

(** A word and the space after it give one token. *)
Lemma scan_blank_word_space (w rest : string) :
  Words.is_word w = true →
  Shlex.scan Shlex.Blank None false "" (w +:+ String " " rest)
  = match Shlex.scan Shlex.Blank None false "" rest with
    | inr toks => inr (w :: toks)
    | inl e => inl e
    end.
Proof.
  intros Hw. rewrite (scan_blank_word _ _ Hw). cbn [Shlex.scan].
  change (Shlex.is_whitespace " ") with true. cbv iota.
  unfold Words.is_word in Hw. apply andb_true_iff in Hw as [Hne _].
  by rewrite Hne.
Qed.

(** Between single quotes every character but the single quote is kept. *)
Lemma scan_single_quoted (t : string) :
  ∀ esc quoted tok rest,
    Py.contains "'" t = false →
    Shlex.scan (Shlex.Quote "'") esc quoted tok (t +:+ String "'" rest)
    = Shlex.scan Shlex.Word esc true (tok +:+ t) rest.
Proof.
  induction t as [|c t IH]; intros esc quoted tok rest Ht.
  - by rewrite append_nil_r.
  - cbn [Py.contains] in Ht. rewrite (Ascii.eqb_sym "'" c) in Ht.
    destruct (Ascii.eqb c "'") eqn:Hc; [done|].
    rewrite append_cons. cbn [Shlex.scan]. rewrite Hc.
    change (Ascii.eqb "'" Shlex.dquote) with false. rewrite andb_false_r.
    rewrite (IH _ _ _ _ Ht). by rewrite snoc_append.
Qed.

(** A quoted token ends at the next space, even when it is empty. *)
Lemma scan_quoted_word_space (esc : option ascii) (tok rest : string) :
  Shlex.scan Shlex.Word esc true tok (String " " rest)
  = match Shlex.scan Shlex.Blank None false "" rest with
    | inr toks => inr (tok :: toks)
    | inl e => inl e
    end.
Proof.
  cbn [Shlex.scan]. change (Shlex.is_whitespace " ") with true. cbv iota.
  by rewrite orb_true_r.
Qed.

(** X11.  A repository token written between single quotes is taken as
    it stands, spaces and backslashes included: the command is accepted
    and the token is what the quotes enclose. *)
Theorem single_quoted_token_accepted (repr : string -> string) (token : string) :
  Py.contains "'" token = false →
  validate repr ("hg -R '" +:+ token +:+ "' serve --stdio") = inr token.
Proof.
  intros Htoken. apply validate_accept. unfold Shlex.split.
  change ("hg -R '" +:+ token +:+ "' serve --stdio")
    with ("hg" +:+ String " " ("-R" +:+ String " "
            (String "'" (token +:+ String "'" " serve --stdio")))).
  rewrite !scan_blank_word_space by reflexivity.
  change (Shlex.scan Shlex.Blank None false ""
            (String "'" (token +:+ String "'" " serve --stdio")))
    with (Shlex.scan (Shlex.Quote "'") None false ""
            (token +:+ String "'" " serve --stdio")).
  rewrite (scan_single_quoted _ _ _ _ _ Htoken).
  change ("" +:+ token) with token.
  change " serve --stdio" with (String " " "serve --stdio").
  rewrite scan_quoted_word_space.
  by change (Shlex.scan Shlex.Blank None false "" "serve --stdio")
       with (@inr exn _ ["serve"; "--stdio"]).
Qed.

Lemma single_quoted_token_accepted_witness :
  Py.contains "'" "my repo\1" = false
  ∧ validate Sample.quote "hg -R 'my repo\1' serve --stdio" = inr "my repo\1".
Proof.
  exact (conj eq_refl (single_quoted_token_accepted Sample.quote "my repo\1" eq_refl)).
Defined.

(** ** Errors of the look-ups *)

(** X12.  Only [KeyError] is turned into a configuration error: any other
    exception of the [location] look-up (a value that cannot be
    interpolated) reaches the handler as it is, and its own message is
    what the caller reads on the error stream. *)
Theorem location_error_printed
        (rt : runtime) (user conf token : string) (config : ConfigParser) (e : exn) :
  read_config rt conf = inr config →
  validate (repr rt) (default "?" (getenv_SSH_ORIGINAL_COMMAND rt)) = inr token →
  has_section config ("repos." +:+ repo_name_of token) = true →
  proxy_getitem (repr rt) config ("repos." +:+ repo_name_of token) "location" = inl e →
  exn_cls e ≠ KeyError →
  script rt user conf = {| trace := [Stderr (exn_str e)]; exit_status := 1 |}.
Proof.
  intros Hread Hval Hsec Hloc Hcls.
  apply script_of_command_error.
  apply (command_resolve_error _ _ _ _ _ _ Hread Hval).
  unfold resolve, mbind, exn_mbind, ebind.
  rewrite parser_getitem_repos, Hsec. simpl. rewrite Hloc. simpl.
  by case_decide.
Qed.

Lemma location_error_printed_witness :
  proxy_getitem (repr Sample.rt_bad_location) Sample.acl_bad_location
    "repos.myrepo1" "location"
  = inl (Raise InterpolationSyntaxError "'%' must be followed by '%' or '(', found: '%'")
  ∧ script Sample.rt_bad_location "user1" "acl"
    = {| trace := [Stderr "'%' must be followed by '%' or '(', found: '%'"];
         exit_status := 1 |}.
Proof.
  assert (Hcls : InterpolationSyntaxError ≠ KeyError) by discriminate.
  exact (conj eq_refl
           (location_error_printed Sample.rt_bad_location "user1" "acl" "myrepo1"
              Sample.acl_bad_location
              (Raise InterpolationSyntaxError "'%' must be followed by '%' or '(', found: '%'")
              eq_refl eq_refl eq_refl eq_refl Hcls)).
Defined.

End Pipeline.
